(** * Gateway API: the guarded swap pipeline of the two route handlers

    A shallow embedding of the Express routers of the gateway
    ([src/unnamed/part_000], the constant-product (Uniswap) router, and
    [src/src/routes/balancer.route.js], the weighted-pool (Balancer) router)
    together with the fragment of JavaScript they rely on: IEEE-754 numbers,
    [parseFloat], [parseInt], [Number::toString], truthiness, relational
    comparison, exceptions and [try]/[catch].

    JavaScript numbers are Rocq's primitive binary64 floats, so every
    arithmetic step of the handlers is the one the engine performs. *)

From Stdlib Require Import ZArith List String Ascii Floats Bool Lia DecimalString.
From stdpp Require Import base strings gmap.

Local Open Scope string_scope.
Local Open Scope Z_scope.

(** ** Decimal text and binary64 numbers *)

Module Num.

(** The double nearest (ties to even) to the positive fraction [n / d]. *)
Definition round_ratio (neg : bool) (n d : Z) : float :=
  let k := Z.max 0 (64 + Z.log2 d - Z.log2 n) in
  let q := (n * 2 ^ k) / d in
  let r := (n * 2 ^ k) mod d in
  let loc := if r =? 0 then loc_Exact else loc_Inexact (2 * r ?= d) in
  SF2Prim (binary_round_aux prec emax neg q (- k) loc).

(** The double nearest to [c * 10^e] ([c >= 0]), signed by [neg]; the two
    early exits only spare the computation of astronomically large powers. *)
Definition of_decimal (neg : bool) (c e : Z) : float :=
  if c <=? 0 then (if neg then neg_zero else zero)
  else if (e <? 0) && (Z.log2 c + 1 + 3 * e <? -1080)
  then (if neg then neg_zero else zero)
  else if (0 <? e) && (1030 <=? Z.log2 c + 3 * e)
  then (if neg then neg_infinity else infinity)
  else if 0 <=? e then round_ratio neg (c * 10 ^ e) 1
  else round_ratio neg c (10 ^ (- e)).

(** The exact value of a finite non-zero double as a fraction. *)
Definition to_ratio (x : float) : option (Z * Z) :=
  match Prim2SF x with
  | S754_finite _ m e =>
      Some (if 0 <=? e then (Zpos m * 2 ^ e, 1) else (Zpos m, 2 ^ (- e)))
  | _ => None
  end.

(** [ge_pow10 n d j]: is [n / d >= 10^j] ? *)
Definition ge_pow10 (n d j : Z) : bool :=
  if 0 <=? j then d * 10 ^ j <=? n else d <=? n * 10 ^ (- j).

Fixpoint climb (fuel : nat) (n d j : Z) : Z :=
  match fuel with
  | O => j
  | S fuel' => if ge_pow10 n d j then climb fuel' n d (j + 1) else j
  end.

(** The decimal exponent [j] of [n / d]: [10^(j-1) <= n / d < 10^j]. *)
Definition dec_exponent (n d : Z) : Z :=
  let est := ((Z.log2 n - Z.log2 d) * 30103) / 100000 in
  climb 8 n d (est - 2).

(** The candidates with [k] significant digits around [n / d], whose decimal
    exponent is [j]: the pair [(s, j')] stands for [s * 10^(j' - k)]. *)
Definition candidate (x : float) (n d j : Z) (k : Z) : option (Z * Z) :=
  let num := n * 10 ^ Z.max 0 (k - j) in
  let den := d * 10 ^ Z.max 0 (j - k) in
  let lo := num / den in
  let r := num mod den in
  let hi := lo + 1 in
  let ok_lo := PrimFloat.eqb (of_decimal false lo (j - k)) x in
  let ok_hi := PrimFloat.eqb (of_decimal false hi (j - k)) x in
  let norm s := if s =? 10 ^ k then (10 ^ (k - 1), j + 1) else (s, j) in
  let pick_hi :=
    match 2 * r ?= den with
    | Lt => false
    | Gt => true
    | Eq => Z.odd lo
    end in
  match ok_lo, ok_hi with
  | true, true => Some (norm (if pick_hi then hi else lo))
  | true, false => Some (norm lo)
  | false, true => Some (norm hi)
  | false, false => None
  end.

Fixpoint shortest_from (fuel : nat) (x : float) (n d j k : Z) : Z * Z * Z :=
  match fuel with
  | O => (n * 10 ^ Z.max 0 (k - j) / (d * 10 ^ Z.max 0 (j - k)), j, k)
  | S fuel' =>
      match candidate x n d j k with
      | Some (s, j') => (s, j', k)
      | None => shortest_from fuel' x n d j (k + 1)
      end
  end.

(** [shortest x = (s, j, k)]: the fewest digits [k >= 1] and the integer
    [10^(k-1) <= s < 10^k] with [s * 10^(j-k)] reading back as [x]
    (Number::toString, step 5), for [x] finite and positive. *)
Definition shortest (x : float) : Z * Z * Z :=
  match to_ratio x with
  | Some (n, d) => shortest_from 17 x n d (dec_exponent n d) 1
  | None => (0, 1, 1)
  end.

Definition digits_of (s : Z) : string := NilZero.string_of_uint (N.to_uint (Z.to_N s)).

Fixpoint zeros (n : nat) : string :=
  match n with O => "" | S n' => String "0" (zeros n') end.

Fixpoint take (n : nat) (s : string) : string :=
  match n, s with
  | S n', String c s' => String c (take n' s')
  | _, _ => ""
  end.

Fixpoint drop (n : nat) (s : string) : string :=
  match n, s with
  | S n', String c s' => drop n' s'
  | _, _ => s
  end.

(** Number::toString steps 6-10 (shared with bignumber.js's [toString]):
    the digits [ds] ([k] of them) of a value with decimal exponent [j]. *)
Definition layout (ds : string) (k j : Z) : string :=
  if (k <=? j) && (j <=? 21) then ds +:+ zeros (Z.to_nat (j - k))
  else if (0 <? j) && (j <=? 21) then
    take (Z.to_nat j) ds +:+ "." +:+ drop (Z.to_nat j) ds
  else if (-6 <? j) && (j <=? 0) then "0." +:+ zeros (Z.to_nat (- j)) +:+ ds
  else
    let e := j - 1 in
    let es := (if e <? 0 then "-" else "+") +:+ digits_of (Z.abs e) in
    if k =? 1 then ds +:+ "e" +:+ es
    else take 1 ds +:+ "." +:+ drop 1 ds +:+ "e" +:+ es.

(** Number::toString(x), radix 10. *)
Definition to_string (x : float) : string :=
  if is_nan x then "NaN"
  else if is_zero x then "0"
  else if PrimFloat.ltb x zero then
    (if is_infinity x then "-Infinity"
     else let '(s, j, k) := shortest (abs x) in "-" +:+ layout (digits_of s) k j)
  else
    (if is_infinity x then "Infinity"
     else let '(s, j, k) := shortest x in layout (digits_of s) k j).

End Num.

(** ** JavaScript values and the operators the handlers apply to them *)

Module Js.

(** Primitive values.  Objects (parameter bags, thrown errors, receipts) are
    flat property maps over them, see [obj] below. *)
Inductive value :=
| Undefined
| Null
| Bool (b : bool)
| Number (x : float)
| Str (s : string).

(** An object, by its own properties. *)
Abbreviation obj := (gmap string value).

(** [o.k]: a missing property reads as [undefined]. *)
Definition get (o : obj) (k : string) : value := default Undefined (o !! k).

Definition code (c : ascii) : Z := Z.of_nat (nat_of_ascii c).

(** White space and line terminators (the ASCII ones). *)
Definition is_ws (c : ascii) : bool :=
  let n := code c in ((9 <=? n) && (n <=? 13)) || (n =? 32).

Fixpoint trim_left (s : string) : string :=
  match s with
  | String c s' => if is_ws c then trim_left s' else s
  | EmptyString => s
  end.

(** The value of [c] as a digit in [radix], if it is one. *)
Definition digit_val (radix : Z) (c : ascii) : option Z :=
  let n := code c in
  let v := if (48 <=? n) && (n <=? 57) then n - 48
           else if (97 <=? n) && (n <=? 122) then n - 87
           else if (65 <=? n) && (n <=? 90) then n - 55
           else radix in
  if v <? radix then Some v else None.

(** The longest run of digits at the head of [s]: its value on top of
    [acc], the number of digits read, and what follows. *)
Fixpoint read_digits (radix : Z) (s : string) (acc cnt : Z) : Z * Z * string :=
  match s with
  | String c s' =>
      match digit_val radix c with
      | Some v => read_digits radix s' (acc * radix + v) (cnt + 1)
      | None => (acc, cnt, s)
      end
  | EmptyString => (acc, cnt, s)
  end.

Definition read_sign (s : string) : bool * string :=
  match s with
  | String "-" s' => (true, s')
  | String "+" s' => (false, s')
  | _ => (false, s)
  end.

Fixpoint strip_prefix (p s : string) : option string :=
  match p, s with
  | EmptyString, _ => Some s
  | String a p', String b s' => if Ascii.eqb a b then strip_prefix p' s' else None
  | String _ _, EmptyString => None
  end.

(** ExponentPart, read only when at least one digit follows the [e]. *)
Definition read_exponent (s : string) : Z * string :=
  match s with
  | String c s' =>
      if (code c =? 101) || (code c =? 69) then
        let (neg, s'') := read_sign s' in
        let '(v, cnt, rest) := read_digits 10 s'' 0 0 in
        if cnt =? 0 then (0, s) else ((if neg then - v else v), rest)
      else (0, s)
  | EmptyString => (0, s)
  end.

(** The longest prefix of [s] that is a StrDecimalLiteral, as a number,
    and the rest of [s]. *)
Definition read_decimal (s : string) : option (float * string) :=
  let (neg, s1) := read_sign s in
  match strip_prefix "Infinity" s1 with
  | Some rest => Some (if neg then neg_infinity else infinity, rest)
  | None =>
      let '(ip, ic, s2) := read_digits 10 s1 0 0 in
      let '(fp, fc, s3) :=
        match s2 with
        | String "." s2' =>
            let '(m, c, r) := read_digits 10 s2' ip 0 in
            if (ic =? 0) && (c =? 0) then (ip, 0, s2) else (m, c, r)
        | _ => (ip, 0, s2)
        end in
      if (ic =? 0) && (fc =? 0) then None
      else
        let (ex, s4) := read_exponent s3 in
        Some (Num.of_decimal neg fp (ex - fc), s4)
  end.

(** [0x], [0o] and [0b] literals of StringToNumber. *)
Definition read_prefixed (s : string) : option float :=
  let go radix body :=
    let '(v, cnt, rest) := read_digits radix body 0 0 in
    if (0 <? cnt) && (String.eqb (trim_left rest) "")
    then Some (Num.of_decimal false v 0) else Some nan in
  match s with
  | String "0" (String c body) =>
      let n := code c in
      if (n =? 120) || (n =? 88) then go 16 body
      else if (n =? 111) || (n =? 79) then go 8 body
      else if (n =? 98) || (n =? 66) then go 2 body
      else None
  | _ => None
  end.

(** StringToNumber. *)
Definition string_to_number (s : string) : float :=
  let t := trim_left s in
  if String.eqb t "" then zero
  else
    match read_prefixed t with
    | Some x => x
    | None =>
        match read_decimal t with
        | Some (x, rest) => if String.eqb (trim_left rest) "" then x else nan
        | None => nan
        end
    end.

Definition ToString (v : value) : string :=
  match v with
  | Undefined => "undefined"
  | Null => "null"
  | Bool true => "true"
  | Bool false => "false"
  | Number x => Num.to_string x
  | Str s => s
  end.

Definition ToNumber (v : value) : float :=
  match v with
  | Undefined => nan
  | Null => zero
  | Bool true => one
  | Bool false => zero
  | Number x => x
  | Str s => string_to_number s
  end.

(** ToBoolean: what [if (v)], [!v] and [v ? a : b] test. *)
Definition truthy (v : value) : bool :=
  match v with
  | Undefined | Null => false
  | Bool b => b
  | Number x => negb (is_nan x || is_zero x)
  | Str s => negb (String.eqb s "")
  end.

(** The global [parseFloat]. *)
Definition parseFloat (v : value) : float :=
  match read_decimal (trim_left (ToString v)) with
  | Some (x, _) => x
  | None => nan
  end.

(** The global [parseInt], called without a radix. *)
Definition parseInt (v : value) : float :=
  let (neg, s) := read_sign (trim_left (ToString v)) in
  let '(radix, body) :=
    match s with
    | String "0" (String c body) =>
        if (code c =? 120) || (code c =? 88) then (16, body) else (10, s)
    | _ => (10, s)
    end in
  let '(v, cnt, _) := read_digits radix body 0 0 in
  if cnt =? 0 then nan else Num.of_decimal neg v 0.

(** [a * b] and [a / b]. *)
Definition mul (a b : value) : float := PrimFloat.mul (ToNumber a) (ToNumber b).
Definition div (a b : value) : float := PrimFloat.div (ToNumber a) (ToNumber b).

(** [a + b]: concatenation as soon as one side is a string. *)
Definition add (a b : value) : value :=
  match a, b with
  | Str _, _ | _, Str _ => Str (ToString a +:+ ToString b)
  | _, _ => Number (PrimFloat.add (ToNumber a) (ToNumber b))
  end.

(** IsLessThan: [Some] of the answer, [None] for undefined (a NaN). *)
Definition less_than (a b : value) : option bool :=
  match a, b with
  | Str s, Str t => Some (String.ltb s t)
  | _, _ =>
      let x := ToNumber a in
      let y := ToNumber b in
      if is_nan x || is_nan y then None else Some (PrimFloat.ltb x y)
  end.

(** [a >= b] and [a <= b]. *)
Definition ge (a b : value) : bool :=
  match less_than a b with Some false => true | _ => false end.
Definition le (a b : value) : bool :=
  match less_than b a with Some false => true | _ => false end.

(** The integer [z] as a number. *)
Definition of_Z (z : Z) : float := Num.of_decimal (z <? 0) (Z.abs z) 0.

End Js.

(** ** bignumber.js values, as far as the handlers use them *)

Module BigNumber.

(** [Fin neg c e] is [(-1)^neg * c * 10^e] with [c >= 0]. *)
Inductive t :=
| NaN
| Inf (neg : bool)
| Fin (neg : bool) (c e : Z).

(** [new BigNumber(x)] for a number [x]: the decimal that [String(x)]
    spells. *)
Definition of_number (x : float) : t :=
  if is_nan x then NaN
  else if is_infinity x then Inf (PrimFloat.ltb x zero)
  else if is_zero x then Fin (get_sign x) 0 0
  else let '(s, j, k) := Num.shortest (abs x) in Fin (PrimFloat.ltb x zero) s (j - k).

Fixpoint strip_zeros (fuel : nat) (c e : Z) : Z * Z :=
  match fuel with
  | O => (c, e)
  | S fuel' => if (c mod 10 =? 0) && negb (c =? 0)
               then strip_zeros fuel' (c / 10) (e + 1) else (c, e)
  end.

(** [valueOf()], which the arithmetic operators and [parseInt] see:
    fixed notation between 1e-7 and 1e21, exponential outside. *)
Definition valueOf (b : t) : string :=
  match b with
  | NaN => "NaN"
  | Inf neg => if neg then "-Infinity" else "Infinity"
  | Fin neg c e =>
      if c <=? 0 then (if neg then "-0" else "0")
      else
        let '(c', e') := strip_zeros (Z.to_nat (Z.log2 c)) c e in
        let ds := Num.digits_of c' in
        let k := Z.of_nat (String.length ds) in
        (if neg then "-" else "") +:+ Num.layout ds k (k + e')
  end.

(** [toString()], which [parseInt] and template strings see. *)
Definition toString (b : t) : string :=
  match b with
  | Fin _ c _ => if c <=? 0 then "0" else valueOf b
  | _ => valueOf b
  end.

(** The primitive an arithmetic operator works on. *)
Definition to_value (b : t) : Js.value := Js.Str (valueOf b).

End BigNumber.

(** ** The world outside the handlers *)

(** What the handlers receive from the Uniswap SDK and the Balancer order
    router and only pass along or ask questions of: a route with its path and
    mid price, a price that can be inverted and printed, a list of swaps. *)
Class Sdk := {
  Route : Type;
  Price : Type;
  Path : Type;
  Swaps : Type;
  midPrice : Route -> Price;
  path : Route -> Path;
  invert : Price -> Price;
  toSignificant : Price -> Z -> string;
}.

Inductive Backend := Uniswap | Balancer.

(** An [ethers.Wallet]: the key it signs with and the provider it talks to. *)
Record Wallet := { signer_key : Js.value; provider : Backend }.

Inductive result (A : Type) :=
| Ok (a : A)
| Throw (e : Js.obj).
Arguments Ok {A} a.
Arguments Throw {A} e.

Section Gateway.
Context {sdk : Sdk}.

(** The calls that leave a handler, in the order they are made. *)
Inductive Call :=
| NewWallet (key : Js.value) (b : Backend)
| FetchRoute (tokenIn tokenOut : Js.value)
| SwapExactIn (w : Wallet) (r : Route) (tokenIn : Js.value)
              (amount : BigNumber.t) (gasPrice : Js.value)
| GetSwaps (tokenIn tokenOut : Js.value) (amount : BigNumber.t)
| BatchSwapExactIn (w : Wallet) (s : Swaps) (tokenIn tokenOut amount : Js.value)
| ConsoleLog (line : string).

(** A property of a response body. *)
Inductive Field :=
| Prim (v : Js.value)
| Raw (e : Js.obj)
| RoutePath (p : Path)
| SwapList (s : Swaps).

(** [res.status(status).json(body)]. *)
Record Response := { status : Z; json : list (string * Field) }.

(** The clock reads made so far, the calls made and the responses sent. *)
Record World := { ticks : nat; calls : list Call; sent : list Response }.

Definition init : World := {| ticks := 0; calls := []; sent := [] |}.

(** The services of the repository that are not under src/ and the
    libraries behind them, as the handlers see them. *)
Record Env := {
  (** [Date.now()], by the number of reads made before, in milliseconds *)
  clock : nat -> Z;
  (** Express: does the route registered as [router.<verb>(path, ...)] take
      a request with this method and this url?  How the path is compared
      (letter case, a final slash, a query string) and which methods a verb
      serves (a HEAD request on a [get] route) is Express's decision. *)
  route_handles : string -> string -> string -> string -> bool;
  (** [process.env] *)
  process_env : Js.obj;
  (** services/utils: [getParamData], [latency(startTime, endTime)], and the
      two certificate messages of [statusMessages] *)
  getParamData : Js.obj -> Js.obj;
  latency : Z -> Z -> Js.value;
  ssl_cert_invalid : Js.value;
  ssl_cert_required : Js.value;
  (** [new ethers.Wallet(key, provider)]: the error it throws, if any *)
  wallet_rejects : Js.value -> option Js.obj;
  (** services/uniswap *)
  uniswap_network : Js.value;
  uniswap_provider_url : Js.value;
  uniswap_exchangeProxy : Js.value;
  fetch_route : Js.value -> Js.value -> result (option Route);
  swapExactIn : Wallet -> Route -> Js.value -> BigNumber.t -> Js.value -> result Js.obj;
  (** services/balancer *)
  balancer_network : Js.value;
  (** [balancer.erc20Tokens[key]]: what the engine reads under [key], a
      property of the registry or one the registry inherits *)
  erc20Tokens : string -> Js.value;
  getSwaps : Js.value -> Js.value -> BigNumber.t -> result (Swaps * BigNumber.t);
  batchSwapExactIn : Wallet -> Swaps -> Js.value -> Js.value -> Js.value -> result Js.value;
}.

(** *** A state and exception monad for the handlers *)

Definition M (A : Type) : Type := World -> result A * World.

Definition ret {A} (a : A) : M A := fun w => (Ok a, w).

Definition bind {A B} (m : M A) (k : A -> M B) : M B :=
  fun w =>
    match m w with
    | (Ok a, w') => k a w'
    | (Throw e, w') => (Throw e, w')
    end.

Definition throw {A} (e : Js.obj) : M A := fun w => (Throw e, w).

(** [try { m } catch (err) { h err }]: what [m] did before it threw stays
    done. *)
Definition try_catch {A} (m : M A) (h : Js.obj -> M A) : M A :=
  fun w =>
    match m w with
    | (Ok a, w') => (Ok a, w')
    | (Throw e, w') => h e w'
    end.

Definition lift {A} (r : result A) : M A := fun w => (r, w).

Definition call (c : Call) : M unit :=
  fun w => (Ok tt, {| ticks := ticks w; calls := calls w ++ [c]; sent := sent w |}).

Definition respond (st : Z) (b : list (string * Field)) : M unit :=
  fun w => (Ok tt, {| ticks := ticks w; calls := calls w;
                      sent := sent w ++ [{| status := st; json := b |}] |}).

End Gateway.

Notation "'let*' x ':=' m 'in' k" := (bind m (fun x => k))
  (at level 10, x pattern, m at level 100, k at level 200).

(** ** The handlers *)

(** Modelled from the spec: [statusMessages.no_pool_available] and
    [statusMessages.operation_error] of services/utils, which is not under
    src/; the spec's response contract spells the two codes. *)
Module statusMessages.
Definition no_pool_available : Js.value := Js.Str "no_pool_available".
Definition operation_error : Js.value := Js.Str "operation_error".
End statusMessages.

Definition denomMultiplier : float := 1e18%float.
Definition swapMoreThanMaxPriceError : string := "Swap price exceeds maxPrice".
Definition swapLessThanMaxPriceError : string := "Swap price lower than maxPrice".

Section Handlers.
Context {sdk : Sdk} (env : Env).

(** [Date.now()] *)
Definition Date_now : M Z :=
  fun w => (Ok (clock env (ticks w)),
            {| ticks := S (ticks w); calls := calls w; sent := sent w |}).

(** [new ethers.Wallet(key, provider)] *)
Definition new_Wallet (key : Js.value) (b : Backend) : M Wallet :=
  let* _ := call (NewWallet key b) in
  match wallet_rejects env key with
  | Some e => throw e
  | None => ret {| signer_key := key; provider := b |}
  end.

Definition await_fetch_route (tokenIn tokenOut : Js.value) : M (option Route) :=
  let* _ := call (FetchRoute tokenIn tokenOut) in
  lift (fetch_route env tokenIn tokenOut).

Definition await_swapExactIn (w : Wallet) (r : Route) (tokenIn : Js.value)
    (amount : BigNumber.t) (gasPrice : Js.value) : M Js.obj :=
  let* _ := call (SwapExactIn w r tokenIn amount gasPrice) in
  lift (swapExactIn env w r tokenIn amount gasPrice).

Definition await_getSwaps (tokenIn tokenOut : Js.value) (amount : BigNumber.t)
    : M (Swaps * BigNumber.t) :=
  let* _ := call (GetSwaps tokenIn tokenOut amount) in
  lift (getSwaps env tokenIn tokenOut amount).

Definition await_batchSwapExactIn (w : Wallet) (s : Swaps)
    (tokenIn tokenOut amount : Js.value) : M Js.value :=
  let* _ := call (BatchSwapExactIn w s tokenIn tokenOut amount) in
  lift (batchSwapExactIn env w s tokenIn tokenOut amount).

Definition console_log (line : string) : M unit := call (ConsoleLog line).

Definition TypeError (message : string) : Js.obj :=
  {[ "name" := Js.Str "TypeError"; "message" := Js.Str message ]}.

(** [route.midPrice], the first property the trade handlers read of the
    route: on [null] it throws a TypeError, which carries no [reason]. *)
Definition route_midPrice (route : option Route) : M Route :=
  match route with
  | Some r => ret r
  | None => throw (TypeError "Cannot read property 'midPrice' of null")
  end.

(** The [catch (err)] block that closes the four quote and trade handlers
    of the Uniswap router. *)
Definition classify (err : Js.obj) : M unit :=
  let reason :=
    if Js.truthy (Js.get err "reason") then Js.get err "reason"
    else statusMessages.operation_error in
  respond 500 [("error", Prim reason); ("message", Raw err)].

(** [parseInt(x * 1e18)], the number a handler wraps in a BigNumber. *)
Definition base_units (x : Js.value) : float :=
  Js.parseInt (Js.Number (Js.mul x (Js.Number denomMultiplier))).

(** [let v; if (p) { v = parseFloat(p) }] *)
Definition optional_float (p : Js.value) : Js.value :=
  if Js.truthy p then Js.Number (Js.parseFloat p) else Js.Undefined.

Definition no_pool : M unit :=
  respond 200 [("error", Prim statusMessages.no_pool_available);
               ("message", Prim (Js.Str ""))].

Definition millis (t : Z) : Field := Prim (Js.Number (Js.of_Z t)).

(** *** [src/unnamed/part_000]: the Uniswap router

    The calls to [debug], which print and decide nothing, are left out, and
    with them [minAmountOut], which only [debug] reads. *)

(** [router.post('/')] *)
Definition root : M unit :=
  let* now := Date_now in
  respond 200
    [("network", Prim (uniswap_network env));
     ("provider", Prim (uniswap_provider_url env));
     ("exchangeProxy", Prim (uniswap_exchangeProxy env));
     ("subgraphUrl", Prim (Js.get (process_env env) "REACT_APP_SUBGRAPH_URL"));
     ("connection", Prim (Js.Bool true));
     ("timestamp", millis now)].

(** [router.post('/sell-price')] *)
Definition sell_price (req_body : Js.obj) : M unit :=
  let* initTime := Date_now in
  let paramData := getParamData env req_body in
  let baseTokenAddress := Js.get paramData "base" in
  let quoteTokenAddress := Js.get paramData "quote" in
  try_catch
    (let* route := await_fetch_route baseTokenAddress quoteTokenAddress in
     match route with
     | Some r =>
         let* now := Date_now in
         respond 200
           [("network", Prim (uniswap_network env));
            ("timestamp", millis initTime);
            ("latency", Prim (latency env initTime now));
            ("base", Prim baseTokenAddress);
            ("quote", Prim quoteTokenAddress);
            ("amount", Prim (Js.Number (Js.parseFloat (Js.get paramData "amount"))));
            ("expectedOut", Prim (Js.Number (Js.parseFloat (Js.Number
               (Js.mul (Js.get paramData "amount")
                       (Js.Str (toSignificant (midPrice r) 8)))))));
            ("price", Prim (Js.Str (toSignificant (midPrice r) 8)));
            ("swaps", RoutePath (path r))]
     | None => no_pool
     end)
    classify.

(** [router.post('/buy-price')] *)
Definition buy_price (req_body : Js.obj) : M unit :=
  let* initTime := Date_now in
  let paramData := getParamData env req_body in
  let baseTokenAddress := Js.get paramData "base" in
  let quoteTokenAddress := Js.get paramData "quote" in
  try_catch
    (let* route := await_fetch_route quoteTokenAddress baseTokenAddress in
     match route with
     | Some r =>
         let* now := Date_now in
         respond 200
           [("network", Prim (uniswap_network env));
            ("timestamp", millis initTime);
            ("latency", Prim (latency env initTime now));
            ("base", Prim baseTokenAddress);
            ("quote", Prim quoteTokenAddress);
            ("amount", Prim (Js.Number (Js.parseFloat (Js.get paramData "amount"))));
            ("expectedIn", Prim (Js.Number (Js.parseFloat (Js.Number
               (Js.mul (Js.get paramData "amount")
                       (Js.Str (toSignificant (invert (midPrice r)) 8)))))));
            ("price", Prim (Js.Str (toSignificant (invert (midPrice r)) 8)));
            ("swaps", RoutePath (path r))]
     | None => no_pool
     end)
    classify.

(** [router.post('/sell')] *)
Definition sell (req_body : Js.obj) : M unit :=
  let* initTime := Date_now in
  let paramData := getParamData env req_body in
  let privateKey := Js.get paramData "privateKey" in
  let* wallet := new_Wallet privateKey Uniswap in
  let baseTokenAddress := Js.get paramData "base" in
  let quoteTokenAddress := Js.get paramData "quote" in
  let amount := BigNumber.of_number (base_units (Js.get paramData "amount")) in
  let maxPrice := optional_float (Js.get paramData "maxPrice") in
  let gasPrice := optional_float (Js.get paramData "gasPrice") in
  try_catch
    (let* route := await_fetch_route baseTokenAddress quoteTokenAddress in
     let* r := route_midPrice route in
     let price := Js.Str (toSignificant (midPrice r) 8) in
     if negb (Js.truthy maxPrice) || Js.ge price maxPrice then
       let* txObj := await_swapExactIn wallet r baseTokenAddress amount gasPrice in
       let* now := Date_now in
       respond 200
         [("network", Prim (uniswap_network env));
          ("timestamp", millis initTime);
          ("latency", Prim (latency env initTime now));
          ("base", Prim baseTokenAddress);
          ("quote", Prim quoteTokenAddress);
          ("amount", Prim (Js.Number (Js.parseFloat (Js.get paramData "amount"))));
          ("expectedOut", Prim (Js.Number (Js.parseFloat (Js.Number
             (Js.mul (Js.get paramData "amount")
                     (Js.Str (toSignificant (midPrice r) 8)))))));
          ("price", Prim price);
          ("gasUsed", Prim (Js.Number (Js.parseInt (Js.get txObj "gasUsed"))));
          ("txHash", Prim (Js.get txObj "transactionHash"));
          ("status", Prim (Js.get txObj "status"))]
     else
       respond 200
         [("error", Prim (Js.Str swapLessThanMaxPriceError));
          ("message", Prim (Js.Str ("Swap price " +:+ Js.ToString price +:+
                                    " lower than maxPrice " +:+ Js.ToString maxPrice)))])
    classify.

(** [router.post('/buy')] *)
Definition buy (req_body : Js.obj) : M unit :=
  let* initTime := Date_now in
  let paramData := getParamData env req_body in
  let privateKey := Js.get paramData "privateKey" in
  let* wallet := new_Wallet privateKey Uniswap in
  let baseTokenAddress := Js.get paramData "base" in
  let quoteTokenAddress := Js.get paramData "quote" in
  let amount := BigNumber.of_number (base_units (Js.get paramData "amount")) in
  let maxPrice := optional_float (Js.get paramData "maxPrice") in
  let gasPrice := optional_float (Js.get paramData "gasPrice") in
  try_catch
    (let* route := await_fetch_route quoteTokenAddress baseTokenAddress in
     let* r := route_midPrice route in
     let price := Js.Str (toSignificant (invert (midPrice r)) 8) in
     if negb (Js.truthy maxPrice) || Js.le price maxPrice then
       let* txObj := await_swapExactIn wallet r quoteTokenAddress amount gasPrice in
       let* now := Date_now in
       respond 200
         [("network", Prim (uniswap_network env));
          ("timestamp", millis initTime);
          ("latency", Prim (latency env initTime now));
          ("base", Prim baseTokenAddress);
          ("quote", Prim quoteTokenAddress);
          ("amount", Prim (Js.Number (Js.parseFloat (Js.get paramData "amount"))));
          ("expectedIn", Prim (Js.Number (Js.parseFloat (Js.Number
             (Js.mul (Js.get paramData "amount")
                     (Js.Str (toSignificant (invert (midPrice r)) 8)))))));
          ("price", Prim price);
          ("gasUsed", Prim (Js.Number (Js.parseInt (Js.get txObj "gasUsed"))));
          ("txHash", Prim (Js.get txObj "transactionHash"));
          ("status", Prim (Js.get txObj "status"))]
     else
       respond 200
         [("error", Prim (Js.Str swapMoreThanMaxPriceError));
          ("message", Prim (Js.Str ("Swap price " +:+ Js.ToString price +:+
                                    " exceeds maxPrice " +:+ Js.ToString maxPrice)))])
    classify.

(** *** [src/src/routes/balancer.route.js]: the Balancer router *)

(** [balancer.erc20Tokens[token]] *)
Definition erc20 (token : Js.value) : Js.value :=
  erc20Tokens env (Js.ToString token).

(** [router.get('/price')] *)
Definition balancer_price (req_query : Js.obj) : M unit :=
  let* initTime := Date_now in
  let tokenIn := Js.get req_query "tokenIn" in
  let tokenOut := Js.get req_query "tokenOut" in
  let amount := BigNumber.of_number (base_units (Js.get req_query "amount")) in
  let* (swaps, expectedOut) := await_getSwaps (erc20 tokenIn) (erc20 tokenOut) amount in
  let* now := Date_now in
  respond 200
    [("network", Prim (balancer_network env));
     ("timestamp", millis initTime);
     ("latency", Prim (latency env initTime now));
     ("tokenIn", Prim tokenIn);
     ("tokenOut", Prim tokenOut);
     ("amount", Prim (Js.Number (Js.parseFloat (Js.get req_query "amount"))));
     ("expectedOut", Prim (Js.Number (Js.div
        (Js.Number (Js.parseInt (Js.Str (BigNumber.toString expectedOut))))
        (Js.Number denomMultiplier))));
     ("price", Prim (Js.Number (Js.div (BigNumber.to_value amount)
                                       (BigNumber.to_value expectedOut))));
     ("swaps", SwapList swaps)].

(** [router.get('/trade')] *)
Definition balancer_trade (req_query : Js.obj) : M unit :=
  let* initTime := Date_now in
  let privateKey := Js.add (Js.Str "0x") (Js.get (process_env env) "ETH_PRIVATE_KEY") in
  let* wallet := new_Wallet privateKey Balancer in
  let tokenIn := Js.get req_query "tokenIn" in
  let tokenOut := Js.get req_query "tokenOut" in
  let amount := BigNumber.of_number (base_units (Js.get req_query "amount")) in
  let amountString := Js.Str (Num.to_string (base_units (Js.get req_query "amount"))) in
  let maxPrice := optional_float (Js.get req_query "maxPrice") in
  let* (swaps, expectedOut) := await_getSwaps (erc20 tokenIn) (erc20 tokenOut) amount in
  let price := Js.Number (Js.div (BigNumber.to_value amount)
                                 (BigNumber.to_value expectedOut)) in
  if negb (Js.truthy maxPrice) || Js.le price maxPrice then
    let* txHash := await_batchSwapExactIn wallet swaps (erc20 tokenIn) (erc20 tokenOut)
                                          amountString in
    let* now := Date_now in
    respond 200
      [("network", Prim (balancer_network env));
       ("timestamp", millis initTime);
       ("latency", Prim (latency env initTime now));
       ("tokenIn", Prim tokenIn);
       ("tokenOut", Prim tokenOut);
       ("amount", Prim (Js.Number (Js.parseFloat (Js.get req_query "amount"))));
       ("expectedOut", Prim (Js.Number (Js.div (BigNumber.to_value expectedOut)
                                               (Js.Number denomMultiplier))));
       ("price", Prim price);
       ("txHash", Prim txHash)]
  else
    console_log ("Swap price " +:+ Js.ToString price +:+
                 " exceeds maxPrice " +:+ Js.ToString maxPrice).

(** *** Requests and the two routers *)

Record Request := {
  (** [req.client.authorized] *)
  authorized : bool;
  (** [req.connection.getPeerCertificate().subject] *)
  cert_subject : Js.value;
  method : string;
  url : string;
  (** [req.body] and [req.query] *)
  req_body : Js.obj;
  req_query : Js.obj;
}.

(** [router.<verb>(path, handler)]: Express runs the handler of the first
    route, in the order of registration, that takes the request; no handler
    of the two routers calls [next], so no second route runs. *)
Definition handles (verb path : string) (req : Request) : bool :=
  route_handles env verb path (method req) (url req).

(** The routes of the Uniswap router.  When no route takes the request the
    code of the router does nothing more: the request is Express's, which
    passes it on or answers it itself (an OPTIONS request, for one). *)
Definition uniswap_routes (req : Request) : M unit :=
  if handles "post" "/" req then root
  else if handles "post" "/sell-price" req then sell_price (req_body req)
  else if handles "post" "/buy-price" req then buy_price (req_body req)
  else if handles "post" "/sell" req then sell (req_body req)
  else if handles "post" "/buy" req then buy (req_body req)
  else ret tt.

(** The Uniswap router: [router.use] with the client-certificate check,
    then the routes. *)
Definition uniswap_router (req : Request) : M unit :=
  if authorized req then uniswap_routes req
  else if Js.truthy (cert_subject req) then
    respond 403 [("error", Prim (ssl_cert_invalid env))]
  else
    respond 401 [("error", Prim (ssl_cert_required env))].

(** The Balancer router: two routes and no middleware of its own. *)
Definition balancer_router (req : Request) : M unit :=
  if handles "get" "/price" req then balancer_price (req_query req)
  else if handles "get" "/trade" req then balancer_trade (req_query req)
  else ret tt.

(** The world after a handler has run on a fresh request.  An exception
    that escapes an [async] handler is an unhandled rejection: nothing more
    is sent. *)
Definition run (m : M unit) : World := snd (m init).

(** Whether the handler ended by an exception nobody caught. *)
Definition escaped (m : M unit) : option Js.obj :=
  match fst (m init) with Throw e => Some e | Ok _ => None end.

End Handlers.

(** ** What a run did *)

Section Observations.
Context {sdk : Sdk}.

Definition is_swap (c : Call) : bool :=
  match c with
  | SwapExactIn _ _ _ _ _ | BatchSwapExactIn _ _ _ _ _ => true
  | _ => false
  end.

(** The Trade Executor was invoked. *)
Definition executed (w : World) : bool := existsb is_swap (calls w).

(** The value of property [k] of a body, if the body has it. *)
Fixpoint field (k : string) (b : list (string * Field)) : option Field :=
  match b with
  | [] => None
  | (k', v) :: b' => if String.eqb k k' then Some v else field k b'
  end.

(** The key a call signs with, for the calls that involve a wallet. *)
Definition key_of (c : Call) : option Js.value :=
  match c with
  | NewWallet key _ => Some key
  | SwapExactIn w _ _ _ _ | BatchSwapExactIn w _ _ _ _ => Some (signer_key w)
  | _ => None
  end.

Definition signs_with (key : Js.value) (c : Call) : Prop :=
  forall k, key_of c = Some k -> k = key.

(** A route query, if [c] is one, goes from [tokenIn] to [tokenOut]. *)
Definition queries (tokenIn tokenOut : Js.value) (c : Call) : Prop :=
  match c with
  | FetchRoute i o => i = tokenIn /\ o = tokenOut
  | GetSwaps i o _ => i = tokenIn /\ o = tokenOut
  | _ => True
  end.

(** Every response that shows a price shows [price]. *)
Definition shows (price : Js.value) (w : World) : Prop :=
  Forall (fun resp => forall f, field "price" (json resp) = Some f -> f = Prim price)
         (sent w).

(** The response of the catch block to the failure [e]. *)
Definition classified (e : Js.obj) : Response :=
  {| status := 500;
     json := [("error", Prim (if Js.truthy (Js.get e "reason") then Js.get e "reason"
                              else Js.Str "operation_error"));
              ("message", Raw e)] |}.



(** The statuses the routers answer with. *)
Definition known_status (r : Response) : Prop :=
  status r = 200 \/ status r = 401 \/ status r = 403 \/ status r = 500.

(** A status other than 200 comes with an [error] and without results. *)
Definition error_shaped (r : Response) : Prop :=
  status r <> 200 -> field "error" (json r) <> None /\ field "price" (json r) = None.

(** At most one response, of a known status and of a known shape. *)
Definition tame (w : World) : Prop :=
  (length (sent w) <= 1)%nat
  /\ Forall (fun r => known_status r /\ error_shaped r) (sent w).

(** The fields a quote and a trade result have in common. *)
Definition agrees_on (keys : list string) (quoted : Response) (w : World) : Prop :=
  Forall (fun resp => forall k f, In k keys ->
            field k (json resp) = Some f -> field k (json quoted) = Some f)
         (sent w).

End Observations.

(** ** A pool double, to run the handlers on concrete requests *)

Module Stub.

(** A route is known by its mid price as printed, straight and inverted. *)
Record quote := { straight : string; inverted : string }.

#[global] Instance sdk : Sdk := {|
  Route := quote;
  Price := quote;
  Path := list string;
  Swaps := list string;
  midPrice r := r;
  path _ := ["pair"];
  invert p := {| straight := inverted p; inverted := straight p |};
  toSignificant p _ := straight p;
|}.

Definition receipt : Js.obj :=
  {[ "gasUsed" := Js.Str "21000";
     "transactionHash" := Js.Str "0xfeed";
     "status" := Js.Number 1%float ]}.

(** A matcher for the requests of the examples: the url as registered, the
    method of the verb, and HEAD on a [get] route. *)
Definition matches (verb path method url : string) : bool :=
  String.eqb url path
  && (if String.eqb verb "post" then String.eqb method "POST"
      else if String.eqb verb "get"
           then String.eqb method "GET" || String.eqb method "HEAD"
           else false).

(** A registry of two tokens, read by its own keys only. *)
Definition registry (key : string) : Js.value :=
  Js.get {[ "WETH" := Js.Str "0xc0de"; "DAI" := Js.Str "0xda10" ]} key.


(** An environment whose clock reads 1000, 1250, ..., whose wallet refuses
    a missing key, whose route query answers [route] and whose order router
    expects [out] base units; swaps succeed. *)
Definition env (route : result (option quote)) (out : BigNumber.t) : Env := {|
  clock n := 1000 + 250 * Z.of_nat n;
  route_handles := matches;
  process_env := {[ "ETH_PRIVATE_KEY" := Js.Str "e5c0" ]};
  getParamData data := data;
  latency startTime endTime := Js.Number (Js.of_Z (endTime - startTime));
  ssl_cert_invalid := Js.Str "Invalid SSL Certificate";
  ssl_cert_required := Js.Str "SSL Certificate required";
  wallet_rejects key :=
    match key with
    | Js.Str _ => None
    | _ => Some {[ "reason" := Js.Str "invalid private key" ]}
    end;
  uniswap_network := Js.Str "kovan";
  uniswap_provider_url := Js.Str "https://kovan.example";
  uniswap_exchangeProxy := Js.Str "0xproxy";
  fetch_route _ _ := route;
  swapExactIn _ _ _ _ _ := Ok receipt;
  balancer_network := Js.Str "kovan";
  erc20Tokens := registry;
  getSwaps _ _ _ := Ok (["pool"], out);
  batchSwapExactIn _ _ _ _ _ := Ok (Js.Str "0xbeef");
|}.

(** The same environment, with an order router that answers [quoted] and a
    Balancer swap that answers [swapped]. *)
Definition env_with (route : result (option quote))
    (quoted : result (list string * BigNumber.t)) (swapped : result Js.value) : Env := {|
  clock n := 1000 + 250 * Z.of_nat n;
  route_handles := matches;
  process_env := {[ "ETH_PRIVATE_KEY" := Js.Str "e5c0" ]};
  getParamData data := data;
  latency startTime endTime := Js.Number (Js.of_Z (endTime - startTime));
  ssl_cert_invalid := Js.Str "Invalid SSL Certificate";
  ssl_cert_required := Js.Str "SSL Certificate required";
  wallet_rejects key :=
    match key with
    | Js.Str _ => None
    | _ => Some {[ "reason" := Js.Str "invalid private key" ]}
    end;
  uniswap_network := Js.Str "kovan";
  uniswap_provider_url := Js.Str "https://kovan.example";
  uniswap_exchangeProxy := Js.Str "0xproxy";
  fetch_route _ _ := route;
  swapExactIn _ _ _ _ _ := Ok receipt;
  balancer_network := Js.Str "kovan";
  erc20Tokens := registry;
  getSwaps _ _ _ := quoted;
  batchSwapExactIn _ _ _ _ _ := swapped;
|}.

Definition trade (amount : string) (maxPrice : option string) : Js.obj :=
  let base : Js.obj :=
    {[ "privateKey" := Js.Str "0xabc"; "base" := Js.Str "0xba5e";
       "quote" := Js.Str "0x900d"; "amount" := Js.Str amount ]} in
  match maxPrice with
  | Some b => <[ "maxPrice" := Js.Str b ]> base
  | None => base
  end.

Definition pool (straight inverted : string) : result (option quote) :=
  Ok (Some {| straight := straight; inverted := inverted |}).

Definition swap (amount : string) (maxPrice : option string) : Js.obj :=
  let base : Js.obj :=
    {[ "tokenIn" := Js.Str "DAI"; "tokenOut" := Js.Str "WETH";
       "amount" := Js.Str amount; "privateKey" := Js.Str "0xabc" ]} in
  match maxPrice with
  | Some b => <[ "maxPrice" := Js.Str b ]> base
  | None => base
  end.

End Stub.

(** ** [src/src/index.js]: the bootstrap of the server *)

Module Index.

(** [typeof v] *)
Definition typeof (v : Js.value) : string :=
  match v with
  | Js.Undefined => "undefined"
  | Js.Null => "object"
  | Js.Bool _ => "boolean"
  | Js.Number _ => "number"
  | Js.Str _ => "string"
  end.

(** [v == null] *)
Definition loosely_null (v : Js.value) : bool :=
  match v with
  | Js.Undefined | Js.Null => true
  | _ => false
  end.

(** [a === b] *)
Definition strict_eq (a b : Js.value) : bool :=
  match a, b with
  | Js.Undefined, Js.Undefined | Js.Null, Js.Null => true
  | Js.Bool x, Js.Bool y => Bool.eqb x y
  | Js.Number x, Js.Number y => PrimFloat.eqb x y
  | Js.Str x, Js.Str y => String.eqb x y
  | _, _ => false
  end.

(** [s.replace(/\/$/, "")]: a slash that ends [s] is dropped, once. *)
Fixpoint drop_final_slash (s : string) : string :=
  match s with
  | EmptyString => EmptyString
  | String c EmptyString => if Ascii.eqb c "/" then EmptyString else s
  | String c s' => String c (drop_final_slash s')
  end.

(** The directory of the certificates, from the [CERT_PATH] of the
    configuration: lines 21 to 32.  Calling [replace] on [null], or on a
    value that is not a string, throws. *)
Definition certPath (configured : Js.value) : result string :=
  if (String.eqb (typeof configured) "undefined" && loosely_null configured)
     || strict_eq configured (Js.Str "")
  then Ok "./certs"
  else
    match configured with
    | Js.Str s => Ok (drop_final_slash s)
    | Js.Undefined | Js.Null =>
        Throw (TypeError "Cannot read property 'replace' of null")
    | _ => Throw (TypeError "certPath.replace is not a function")
    end.

(** The global [isNaN]. *)
Definition isNaN (v : Js.value) : bool := is_nan (Js.ToNumber v).

(** [isNumeric(str)] *)
Definition isNumeric (str : Js.value) : bool :=
  negb (isNaN str) && negb (isNaN (Js.Number (Js.parseFloat str))).

(** [s.split(sep)] for a separator of one character: never empty. *)
Fixpoint split (sep : ascii) (s : string) : list string :=
  match s with
  | EmptyString => [EmptyString]
  | String c s' =>
      if Ascii.eqb c sep then EmptyString :: split sep s'
      else
        match split sep s' with
        | w :: ws => String c w :: ws
        | [] => [String c EmptyString]
        end
  end.

(** [lastword(words)] *)
Definition lastword (words : string) : Js.value :=
  let n := split " " words in
  match n !! (length n - 1)%nat with
  | Some w => Js.Str w
  | None => Js.Undefined
  end.

(** The double quote, as a string. *)
Definition dquote : string := String (ascii_of_nat 34) EmptyString.

(** [s.indexOf(t) > -1] *)
Fixpoint includes (t s : string) : bool :=
  match Js.strip_prefix t s with
  | Some _ => true
  | None =>
      match s with
      | EmptyString => false
      | String _ s' => includes t s'
      end
  end.

Section Running.
(** [String.prototype.toLowerCase], left to the engine. *)
Variable toLowerCase : string -> string.

(** [isRunning(query, cb)], the command it hands to [exec]. *)
Definition isRunning_cmd (platform : string) (query : Js.value) : string :=
  if isNumeric query then
    if String.eqb platform "win32" then
      "netstat -aon | findstr " +:+ dquote +:+ "0.0.0.0:" +:+ Js.ToString query +:+ dquote
    else if String.eqb platform "darwin" then
      "ps -ax | grep " +:+ Js.ToString query
    else if String.eqb platform "linux" then
      "netstat -tlnp 2>/dev/null | awk '/:" +:+ Js.ToString query +:+
      " */ {split($NF,a," +:+ dquote +:+ "/" +:+ dquote +:+ "); print a[1]}'"
    else ""
  else "".

(** [isRunning(query, cb)], what [cb] is called with once [exec] has
    answered [stdout]: the callback of line 133. *)
Definition isRunning_cb (query : Js.value) (stdout : string) : result Js.value :=
  if isNumeric query then
    if isNumeric (Js.Str stdout) then Ok (Js.Str stdout)
    else Ok (lastword stdout)
  else
    match query with
    | Js.Str q => Ok (Js.Bool (includes (toLowerCase q) (toLowerCase stdout)))
    | Js.Undefined | Js.Null =>
        Throw (TypeError "Cannot read property 'toLowerCase' of undefined")
    | _ => Throw (TypeError "query.toLowerCase is not a function")
    end.

End Running.

(** How [onError] ends: it throws, or it prints a line and exits. *)
Inductive Fate :=
| Thrown (error : Js.obj)
| Exited (line : string) (code : Z).

(** [onError(error)], the listener of the server's "error" event. *)
Definition onError (port : Js.value) (error : Js.obj) : Fate :=
  if negb (strict_eq (Js.get error "syscall") (Js.Str "listen")) then Thrown error
  else
    let bind :=
      if String.eqb (typeof port) "string" then Js.add (Js.Str "Pipe ") port
      else Js.add (Js.Str "Port ") port in
    if strict_eq (Js.get error "code") (Js.Str "EACCES") then
      Exited (Js.ToString (Js.add bind (Js.Str " requires elevated privileges"))) 1
    else if strict_eq (Js.get error "code") (Js.Str "EADDRINUSE") then
      Exited (Js.ToString (Js.add bind (Js.Str " is already in use"))) 1
    else Thrown error.

End Index.


(** Whether [s] ends with the character [c]. *)
Fixpoint ends_in (c : ascii) (s : string) : bool :=
  match s with
  | EmptyString => false
  | String d EmptyString => Ascii.eqb d c
  | String _ s' => ends_in c s'
  end.

(** The spaces of a string. *)
Fixpoint has_space (s : string) : bool :=
  match s with
  | EmptyString => false
  | String c s' => Ascii.eqb c " " || has_space s'
  end.

(** ** Properties *)

Arguments Js.parseFloat : simpl never.
Arguments Js.parseInt : simpl never.
Arguments Js.mul : simpl never.
Arguments Js.div : simpl never.
Arguments Js.add : simpl never.
Arguments Js.ge : simpl never.
Arguments Js.le : simpl never.
Arguments Js.truthy : simpl never.
Arguments Js.ToString : simpl never.
Arguments Js.ToNumber : simpl never.
Arguments Js.get : simpl never.
Arguments Js.of_Z : simpl never.
Arguments BigNumber.of_number : simpl never.
Arguments BigNumber.valueOf : simpl never.
Arguments BigNumber.toString : simpl never.
Arguments Num.to_string : simpl never.
Arguments base_units : simpl never.
Arguments optional_float : simpl never.
Arguments String.append : simpl never.

(** *** The order of numbers *)

Section Float_order.

Lemma SFcompare_swap (a b : spec_float) :
  SFcompare b a = option_map CompOpp (SFcompare a b).
Proof.
  destruct a as [sa|sa| |sa ma ea], b as [sb|sb| |sb mb eb]; simpl;
    try reflexivity; try (destruct sa; reflexivity);
    try (destruct sb; reflexivity); try (destruct sa, sb; reflexivity).
  destruct sa, sb; simpl; try reflexivity;
    rewrite (Z.compare_antisym ea eb);
    destruct (ea ?= eb)%Z; simpl; try reflexivity;
    rewrite (Pos.compare_cont_antisym ma mb Eq); simpl;
    try rewrite CompOpp_involutive; reflexivity.
Qed.

Lemma SFcompare_defined (a b : spec_float) :
  a <> S754_nan -> b <> S754_nan -> exists c, SFcompare a b = Some c.
Proof.
  destruct a, b; simpl; intros Ha Hb; try congruence; eauto.
Qed.

Lemma is_nan_Prim2SF (x : float) : is_nan x = true <-> Prim2SF x = S754_nan.
Proof.
  unfold is_nan. rewrite FloatAxioms.eqb_spec. unfold SFeqb.
  destruct (Prim2SF x) as [s|s| |s m e]; simpl.
  - split; [discriminate|discriminate].
  - destruct s; split; discriminate.
  - split; reflexivity.
  - destruct s; rewrite Z.compare_refl, Pos.compare_cont_refl; simpl;
      split; discriminate.
Qed.

(** Between numbers, [x >= y] is [y <= x], and a NaN on either side makes
    it false. *)
Lemma not_less_is_leb (x y : float) :
  (if is_nan x || is_nan y then false else negb (PrimFloat.ltb x y))
  = PrimFloat.leb y x.
Proof.
  rewrite FloatAxioms.ltb_spec, FloatAxioms.leb_spec. unfold SFltb, SFleb.
  destruct (is_nan x) eqn:Hx.
  { apply is_nan_Prim2SF in Hx. rewrite Hx. simpl.
    destruct (Prim2SF y); reflexivity. }
  destruct (is_nan y) eqn:Hy.
  { apply is_nan_Prim2SF in Hy. rewrite Hy. reflexivity. }
  simpl.
  assert (Prim2SF x <> S754_nan) as Nx
    by (intros E; apply is_nan_Prim2SF in E; congruence).
  assert (Prim2SF y <> S754_nan) as Ny
    by (intros E; apply is_nan_Prim2SF in E; congruence).
  destruct (SFcompare_defined _ _ Nx Ny) as [c Hc].
  rewrite (SFcompare_swap (Prim2SF x) (Prim2SF y)), Hc.
  destruct c; reflexivity.
Qed.

Lemma ge_number (a : Js.value) (y : float) :
  Js.ge a (Js.Number y) = PrimFloat.leb y (Js.ToNumber a).
Proof.
  rewrite <- not_less_is_leb. unfold Js.ge, Js.less_than.
  change (Js.ToNumber (Js.Number y)) with y.
  destruct a; destruct (is_nan _ || is_nan y);
    try reflexivity; destruct (PrimFloat.ltb _ y); reflexivity.
Qed.

Lemma le_number (a : Js.value) (y : float) :
  Js.le a (Js.Number y) = PrimFloat.leb (Js.ToNumber a) y.
Proof.
  rewrite <- not_less_is_leb. unfold Js.le, Js.less_than.
  change (Js.ToNumber (Js.Number y)) with y.
  destruct a; destruct (is_nan y || is_nan _);
    try reflexivity; destruct (PrimFloat.ltb y _); reflexivity.
Qed.

End Float_order.

(** *** Running the handlers *)

Ltac unfold_handlers :=
  unfold run, escaped, uniswap_router, uniswap_routes, balancer_router,
    root, sell_price, buy_price, sell, buy, balancer_price, balancer_trade,
    classify, no_pool, console_log, route_midPrice,
    await_fetch_route, await_swapExactIn, await_getSwaps, await_batchSwapExactIn,
    new_Wallet, Date_now, try_catch, bind, ret, throw, lift, call, respond, init.

Ltac use_oracles :=
  repeat match goal with
    | H : ?x = _ |- context [match ?x with _ => _ end] => rewrite H; cbn
    | H : ?g = _ |- context [if ?g then _ else _] => rewrite H; cbn
    end.

Ltac split_guard :=
  match goal with
  | |- context [if ?g then _ else _] => destruct g eqn:?; cbn
  end.

Ltac case_oracles :=
  repeat match goal with
    | H : ?x = _ |- context [match ?x with _ => _ end] => rewrite H; cbn
    | |- context [match wallet_rejects ?e ?k with _ => _ end] =>
        destruct (wallet_rejects e k) eqn:?; cbn
    | |- context [match fetch_route ?e ?a ?b with _ => _ end] =>
        destruct (fetch_route e a b) as [[?|]|?] eqn:?; cbn
    | |- context [match swapExactIn ?e ?w ?r ?t ?a ?g with _ => _ end] =>
        destruct (swapExactIn e w r t a g) eqn:?; cbn
    | |- context [match getSwaps ?e ?a ?b ?c with _ => _ end] =>
        destruct (getSwaps e a b c) as [[? ?]|?] eqn:?; cbn
    | |- context [match batchSwapExactIn ?e ?w ?s ?a ?b ?c with _ => _ end] =>
        destruct (batchSwapExactIn e w s a b c) eqn:?; cbn
    end.

Ltac run_handler := unfold_handlers; cbn; use_oracles.

Section Trades.
Context {sdk : Sdk} (env : Env).

(** Whether [/sell] reaches the executor, once the wallet is built and the
    route found: the guard of the handler, as written. *)
Lemma sell_executed (body : Js.obj) (r : Route) :
  let pd := getParamData env body in
  let maxPrice := optional_float (Js.get pd "maxPrice") in
  wallet_rejects env (Js.get pd "privateKey") = None ->
  fetch_route env (Js.get pd "base") (Js.get pd "quote") = Ok (Some r) ->
  executed (run (sell env body))
  = negb (Js.truthy maxPrice) || Js.ge (Js.Str (toSignificant (midPrice r) 8)) maxPrice.
Proof.
  intros pd maxPrice Hw Hr. subst pd maxPrice.
  run_handler.
  split_guard; case_oracles; reflexivity.
Qed.

Lemma buy_executed (body : Js.obj) (r : Route) :
  let pd := getParamData env body in
  let maxPrice := optional_float (Js.get pd "maxPrice") in
  wallet_rejects env (Js.get pd "privateKey") = None ->
  fetch_route env (Js.get pd "quote") (Js.get pd "base") = Ok (Some r) ->
  executed (run (buy env body))
  = negb (Js.truthy maxPrice)
    || Js.le (Js.Str (toSignificant (invert (midPrice r)) 8)) maxPrice.
Proof.
  intros pd maxPrice Hw Hr. subst pd maxPrice.
  run_handler.
  split_guard; case_oracles; reflexivity.
Qed.

Lemma balancer_trade_executed (query : Js.obj) (swaps : Swaps) (out : BigNumber.t) :
  let amount := BigNumber.of_number (base_units (Js.get query "amount")) in
  let maxPrice := optional_float (Js.get query "maxPrice") in
  wallet_rejects env (Js.add (Js.Str "0x") (Js.get (process_env env) "ETH_PRIVATE_KEY"))
    = None ->
  getSwaps env (erc20 env (Js.get query "tokenIn")) (erc20 env (Js.get query "tokenOut"))
    amount = Ok (swaps, out) ->
  executed (run (balancer_trade env query))
  = negb (Js.truthy maxPrice)
    || Js.le (Js.Number (Js.div (BigNumber.to_value amount) (BigNumber.to_value out)))
             maxPrice.
Proof.
  intros amount maxPrice Hw Hs. subst amount maxPrice.
  run_handler.
  split_guard; case_oracles; reflexivity.
Qed.

(** A bound that is supplied and reads as a number other than 0 and NaN. *)
Lemma optional_float_bound (v : Js.value) :
  Js.truthy v = true ->
  is_nan (Js.parseFloat v) || is_zero (Js.parseFloat v) = false ->
  optional_float v = Js.Number (Js.parseFloat v)
  /\ Js.truthy (optional_float v) = true.
Proof.
  intros Hv Hb. unfold optional_float. rewrite Hv. split; [reflexivity|].
  unfold Js.truthy. rewrite Hb. reflexivity.
Qed.

Lemma guard_with_bound (v : Js.value) (cmp : Js.value -> bool) :
  Js.truthy v = true ->
  is_nan (Js.parseFloat v) || is_zero (Js.parseFloat v) = false ->
  negb (Js.truthy (optional_float v)) || cmp (optional_float v)
  = cmp (Js.Number (Js.parseFloat v)).
Proof.
  intros Hv Hb. destruct (optional_float_bound v Hv Hb) as [E T].
  rewrite T, E. reflexivity.
Qed.

Lemma optional_float_absent (pd : Js.obj) (k : string) :
  pd !! k = None -> optional_float (Js.get pd k) = Js.Undefined.
Proof.
  intros H. unfold Js.get. rewrite H. reflexivity.
Qed.

End Trades.

(** *** C1: the price guard *)

(** C1, as the code has it.  For every trade request whose wallet is built
    and whose route query answers with a route (an expected output, on the
    Balancer router), [p] being the observed price: when the supplied
    [maxPrice] is truthy and [parseFloat] reads it as a number [b] other than
    0 and NaN, the Trade Executor is invoked iff [p >= b] on [/sell], iff
    [p <= b] on [/buy] and on the Balancer [/trade]; when no [maxPrice] is
    supplied the guard passes and the executor is invoked. *)
Theorem price_guard_semantics {sdk : Sdk} (env : Env) (body query : Js.obj)
    (r : Route) (swaps : Swaps) (out : BigNumber.t) :
  let pd := getParamData env body in
  let v := Js.get pd "maxPrice" in
  let b := Js.parseFloat v in
  let amount := BigNumber.of_number (base_units (Js.get query "amount")) in
  let qv := Js.get query "maxPrice" in
  let qb := Js.parseFloat qv in
  (wallet_rejects env (Js.get pd "privateKey") = None ->
   fetch_route env (Js.get pd "base") (Js.get pd "quote") = Ok (Some r) ->
   let p := Js.ToNumber (Js.Str (toSignificant (midPrice r) 8)) in
   (Js.truthy v = true -> is_nan b || is_zero b = false ->
    (executed (run (sell env body)) = true <-> PrimFloat.leb b p = true))
   /\ (pd !! "maxPrice" = None -> executed (run (sell env body)) = true))
  /\
  (wallet_rejects env (Js.get pd "privateKey") = None ->
   fetch_route env (Js.get pd "quote") (Js.get pd "base") = Ok (Some r) ->
   let p := Js.ToNumber (Js.Str (toSignificant (invert (midPrice r)) 8)) in
   (Js.truthy v = true -> is_nan b || is_zero b = false ->
    (executed (run (buy env body)) = true <-> PrimFloat.leb p b = true))
   /\ (pd !! "maxPrice" = None -> executed (run (buy env body)) = true))
  /\
  (wallet_rejects env (Js.add (Js.Str "0x") (Js.get (process_env env) "ETH_PRIVATE_KEY"))
     = None ->
   getSwaps env (erc20 env (Js.get query "tokenIn")) (erc20 env (Js.get query "tokenOut"))
     amount = Ok (swaps, out) ->
   let p := Js.div (BigNumber.to_value amount) (BigNumber.to_value out) in
   (Js.truthy qv = true -> is_nan qb || is_zero qb = false ->
    (executed (run (balancer_trade env query)) = true <-> PrimFloat.leb p qb = true))
   /\ (query !! "maxPrice" = None -> executed (run (balancer_trade env query)) = true)).
Proof.
  intros pd v b amount qv qb. subst pd v b amount qv qb. split; [|split].
  - intros Hw Hr p. split.
    + intros Hv Hb. rewrite (sell_executed env body r Hw Hr).
      rewrite (guard_with_bound _ _ Hv Hb), ge_number. reflexivity.
    + intros Hn. rewrite (sell_executed env body r Hw Hr).
      rewrite (optional_float_absent _ _ Hn). reflexivity.
  - intros Hw Hr p. split.
    + intros Hv Hb. rewrite (buy_executed env body r Hw Hr).
      rewrite (guard_with_bound _ _ Hv Hb), le_number. reflexivity.
    + intros Hn. rewrite (buy_executed env body r Hw Hr).
      rewrite (optional_float_absent _ _ Hn). reflexivity.
  - intros Hw Hs p. split.
    + intros Hv Hb. rewrite (balancer_trade_executed env query swaps out Hw Hs).
      rewrite (guard_with_bound _ _ Hv Hb), le_number. reflexivity.
    + intros Hn. rewrite (balancer_trade_executed env query swaps out Hw Hs).
      rewrite (optional_float_absent _ _ Hn). reflexivity.
Qed.

(** The guard on a pool quoted 95 one way and 105 the other, against a
    bound of 100, and a Balancer trade without a bound. *)
Lemma price_guard_semantics_witness :
  let env := Stub.env (Stub.pool "95" "105") (BigNumber.Fin false 5 17) in
  let r := {| Stub.straight := "95"; Stub.inverted := "105" |} in
  (executed (run (sell env (Stub.trade "1" (Some "100")))) = true
   <-> PrimFloat.leb (Js.parseFloat (Js.Str "100"))
         (Js.ToNumber (Js.Str (toSignificant (midPrice r) 8))) = true)
  /\ (executed (run (buy env (Stub.trade "1" (Some "100")))) = true
      <-> PrimFloat.leb (Js.ToNumber (Js.Str (toSignificant (invert (midPrice r)) 8)))
            (Js.parseFloat (Js.Str "100")) = true)
  /\ executed (run (balancer_trade env (Stub.swap "1" None))) = true.
Proof.
  intros env r.
  destruct (price_guard_semantics env (Stub.trade "1" (Some "100"))
              (Stub.swap "1" None) r ["pool"] (BigNumber.Fin false 5 17))
    as [Hs [Hb Hq]].
  split; [|split].
  - refine (proj1 (Hs _ _) _ _); vm_compute; reflexivity.
  - refine (proj1 (Hb _ _) _ _); vm_compute; reflexivity.
  - refine (proj2 (Hq _ _) _); vm_compute; reflexivity.
Defined.

(** C1 as stated fails on a supplied bound of 0: [/buy] with [maxPrice=0] and
    an observed price of 5 invokes the executor although [5 <= 0] is false. *)
Lemma buy_zero_bound_executes :
  let env := Stub.env (Stub.pool "0.2" "5") BigNumber.NaN in
  let body := Stub.trade "1" (Some "0") in
  let b := Js.parseFloat (Js.get (getParamData env body) "maxPrice") in
  let p := Js.ToNumber (Js.Str "5") in
  getParamData env body !! "maxPrice" = Some (Js.Str "0")
  /\ ~ (executed (run (buy env body)) = true <-> PrimFloat.leb p b = true).
Proof.
  split; [vm_compute; reflexivity|].
  intros [H _].
  assert (E : executed (run (buy (Stub.env (Stub.pool "0.2" "5") BigNumber.NaN)
                               (Stub.trade "1" (Some "0")))) = true)
    by (vm_compute; reflexivity).
  specialize (H E). vm_compute in H. discriminate H.
Qed.

(** *** C2: the amount codec *)

(** C2 at the failing input: an amount of 1000 tokens.  [1000 * 1e18] is
    the number 1e21, which prints as "1e+21"; [parseInt] reads the digits
    before the "e", so the base-unit amount is 1, the executor is handed one
    base unit, and dividing back by 1e18 gives 1e-18, a thousand tokens away
    from the amount.  Amounts of 1 and 0.1 convert as intended. *)
Theorem thousand_tokens_to_base_units :
  let back b := Js.div (BigNumber.to_value b) (Js.Number denomMultiplier) in
  Js.ToString (Js.Number (Js.mul (Js.Str "1000") (Js.Number denomMultiplier))) = "1e+21"
  /\ base_units (Js.Str "1000") = 1%float
  /\ BigNumber.of_number (base_units (Js.Str "1000")) = BigNumber.Fin false 1 0
  /\ back (BigNumber.of_number (base_units (Js.Str "1000"))) = Js.ToNumber (Js.Str "1e-18")
  /\ PrimFloat.ltb
       (abs (back (BigNumber.of_number (base_units (Js.Str "1000"))) - 1000))%float
       (Js.ToNumber (Js.Str "1e-18")) = false
  /\ calls (run (sell (Stub.env (Stub.pool "95" "105") BigNumber.NaN)
                      (Stub.trade "1000" None)))
     = [NewWallet (Js.Str "0xabc") Uniswap;
        FetchRoute (Js.Str "0xba5e") (Js.Str "0x900d");
        SwapExactIn {| signer_key := Js.Str "0xabc"; provider := Uniswap |}
          {| Stub.straight := "95"; Stub.inverted := "105" |}
          (Js.Str "0xba5e") (BigNumber.Fin false 1 0) Js.Undefined]
  /\ BigNumber.of_number (base_units (Js.Str "1")) = BigNumber.Fin false 1 18
  /\ BigNumber.of_number (base_units (Js.Str "0.1")) = BigNumber.Fin false 1 17.
Proof.
  repeat split; vm_compute; reflexivity.
Qed.

(** *** C3: what a rejected trade is answered *)

Section Rejections.
Context {sdk : Sdk} (env : Env).

(** C3 on the code.  When the guard rejects, [/sell] and [/buy] submit
    nothing and answer 200 with [{error, message}], the error being "Swap
    price lower than maxPrice" and "Swap price exceeds maxPrice"; the
    Balancer [/trade] submits nothing either, but only logs the line and
    sends no response at all. *)
Theorem guard_rejection_responses (body query : Js.obj) (r : Route)
    (swaps : Swaps) (out : BigNumber.t) :
  let pd := getParamData env body in
  let maxPrice := optional_float (Js.get pd "maxPrice") in
  let amount := BigNumber.of_number (base_units (Js.get query "amount")) in
  let qmax := optional_float (Js.get query "maxPrice") in
  (wallet_rejects env (Js.get pd "privateKey") = None ->
   fetch_route env (Js.get pd "base") (Js.get pd "quote") = Ok (Some r) ->
   let price := Js.Str (toSignificant (midPrice r) 8) in
   negb (Js.truthy maxPrice) || Js.ge price maxPrice = false ->
   executed (run (sell env body)) = false
   /\ sent (run (sell env body))
      = [{| status := 200;
            json := [("error", Prim (Js.Str "Swap price lower than maxPrice"));
                     ("message", Prim (Js.Str ("Swap price " +:+ Js.ToString price +:+
                        " lower than maxPrice " +:+ Js.ToString maxPrice)))] |}])
  /\
  (wallet_rejects env (Js.get pd "privateKey") = None ->
   fetch_route env (Js.get pd "quote") (Js.get pd "base") = Ok (Some r) ->
   let price := Js.Str (toSignificant (invert (midPrice r)) 8) in
   negb (Js.truthy maxPrice) || Js.le price maxPrice = false ->
   executed (run (buy env body)) = false
   /\ sent (run (buy env body))
      = [{| status := 200;
            json := [("error", Prim (Js.Str "Swap price exceeds maxPrice"));
                     ("message", Prim (Js.Str ("Swap price " +:+ Js.ToString price +:+
                        " exceeds maxPrice " +:+ Js.ToString maxPrice)))] |}])
  /\
  (wallet_rejects env (Js.add (Js.Str "0x") (Js.get (process_env env) "ETH_PRIVATE_KEY"))
     = None ->
   getSwaps env (erc20 env (Js.get query "tokenIn")) (erc20 env (Js.get query "tokenOut"))
     amount = Ok (swaps, out) ->
   let price := Js.Number (Js.div (BigNumber.to_value amount) (BigNumber.to_value out)) in
   negb (Js.truthy qmax) || Js.le price qmax = false ->
   executed (run (balancer_trade env query)) = false
   /\ sent (run (balancer_trade env query)) = []
   /\ escaped (balancer_trade env query) = None).
Proof.
  intros pd maxPrice amount qmax. subst pd maxPrice amount qmax.
  split; [|split].
  - intros Hw Hr price Hg. subst price. run_handler. split; reflexivity.
  - intros Hw Hr price Hg. subst price. run_handler. split; reflexivity.
  - intros Hw Hs price Hg. subst price. run_handler. repeat split; reflexivity.
Qed.

End Rejections.

(** Scenario B of the spec on [/sell], its mirror on [/buy], and a Balancer
    trade at price 2 against a bound of 1. *)
Lemma guard_rejection_responses_witness :
  let env := Stub.env (Stub.pool "95" "105") (BigNumber.Fin false 5 17) in
  (executed (run (sell env (Stub.trade "1" (Some "100")))) = false
   /\ sent (run (sell env (Stub.trade "1" (Some "100"))))
      = [{| status := 200;
            json := [("error", Prim (Js.Str "Swap price lower than maxPrice"));
                     ("message", Prim (Js.Str "Swap price 95 lower than maxPrice 100"))] |}])
  /\ (executed (run (buy env (Stub.trade "1" (Some "100")))) = false
      /\ sent (run (buy env (Stub.trade "1" (Some "100"))))
         = [{| status := 200;
               json := [("error", Prim (Js.Str "Swap price exceeds maxPrice"));
                        ("message", Prim (Js.Str "Swap price 105 exceeds maxPrice 100"))] |}])
  /\ (executed (run (balancer_trade env (Stub.swap "1" (Some "1")))) = false
      /\ sent (run (balancer_trade env (Stub.swap "1" (Some "1")))) = []
      /\ escaped (balancer_trade env (Stub.swap "1" (Some "1"))) = None).
Proof.
  intros env.
  destruct (guard_rejection_responses env (Stub.trade "1" (Some "100"))
              (Stub.swap "1" (Some "1"))
              {| Stub.straight := "95"; Stub.inverted := "105" |}
              ["pool"] (BigNumber.Fin false 5 17))
    as [Hs [Hb Hq]].
  split; [|split].
  - apply Hs; vm_compute; reflexivity.
  - apply Hb; vm_compute; reflexivity.
  - apply Hq; vm_compute; reflexivity.
Defined.

(** *** C4: no route *)

Section No_route.
Context {sdk : Sdk} (env : Env).

(** C4 on the code.  When the route query returns no route, the two quote
    handlers query once and answer 200 with [no_pool_available] and an empty
    message; the two trade handlers read [route.midPrice] of the missing
    route, and the TypeError lands in the catch block: they answer 500 with
    [operation_error].  No handler reaches the executor. *)
Theorem no_route_responses (body : Js.obj) :
  let pd := getParamData env body in
  let no_pool_available :=
    {| status := 200;
       json := [("error", Prim (Js.Str "no_pool_available"));
                ("message", Prim (Js.Str ""))] |} in
  let operation_error :=
    {| status := 500;
       json := [("error", Prim (Js.Str "operation_error"));
                ("message", Raw (TypeError "Cannot read property 'midPrice' of null"))] |} in
  (fetch_route env (Js.get pd "base") (Js.get pd "quote") = Ok None ->
   run (sell_price env body)
   = {| ticks := 1;
        calls := [FetchRoute (Js.get pd "base") (Js.get pd "quote")];
        sent := [no_pool_available] |})
  /\
  (fetch_route env (Js.get pd "quote") (Js.get pd "base") = Ok None ->
   run (buy_price env body)
   = {| ticks := 1;
        calls := [FetchRoute (Js.get pd "quote") (Js.get pd "base")];
        sent := [no_pool_available] |})
  /\
  (wallet_rejects env (Js.get pd "privateKey") = None ->
   fetch_route env (Js.get pd "base") (Js.get pd "quote") = Ok None ->
   executed (run (sell env body)) = false
   /\ sent (run (sell env body)) = [operation_error])
  /\
  (wallet_rejects env (Js.get pd "privateKey") = None ->
   fetch_route env (Js.get pd "quote") (Js.get pd "base") = Ok None ->
   executed (run (buy env body)) = false
   /\ sent (run (buy env body)) = [operation_error]).
Proof.
  intros pd ok ko. subst pd ok ko.
  split; [|split; [|split]].
  - intros Hr. run_handler. reflexivity.
  - intros Hr. run_handler. reflexivity.
  - intros Hw Hr. run_handler. split; reflexivity.
  - intros Hw Hr. run_handler. split; reflexivity.
Qed.

End No_route.

(** The four handlers on a pair without a pool. *)
Lemma no_route_responses_witness :
  let env := Stub.env (Ok None) BigNumber.NaN in
  let body := Stub.trade "1" None in
  sent (run (sell_price env body))
  = [{| status := 200;
        json := [("error", Prim (Js.Str "no_pool_available"));
                 ("message", Prim (Js.Str ""))] |}]
  /\ sent (run (buy_price env body))
     = [{| status := 200;
           json := [("error", Prim (Js.Str "no_pool_available"));
                    ("message", Prim (Js.Str ""))] |}]
  /\ sent (run (sell env body))
     = [{| status := 500;
           json := [("error", Prim (Js.Str "operation_error"));
                    ("message", Raw (TypeError "Cannot read property 'midPrice' of null"))] |}]
  /\ sent (run (buy env body))
     = [{| status := 500;
           json := [("error", Prim (Js.Str "operation_error"));
                    ("message", Raw (TypeError "Cannot read property 'midPrice' of null"))] |}].
Proof.
  intros env body.
  destruct (no_route_responses env body) as [Hsp [Hbp [Hs Hb]]].
  split; [|split; [|split]].
  - rewrite Hsp; [reflexivity | vm_compute; reflexivity].
  - rewrite Hbp; [reflexivity | vm_compute; reflexivity].
  - apply Hs; vm_compute; reflexivity.
  - apply Hb; vm_compute; reflexivity.
Defined.

(** *** C6: the key the wallet is built from *)

Ltac explore :=
  unfold_handlers; cbn;
  repeat first
    [ progress case_oracles
    | match goal with
      | |- context [if negb ?t || ?c then _ else _] =>
          destruct (negb t || c) eqn:?; cbn
      end ].

Section Signer.
Context {sdk : Sdk} (env : Env).

(** C6 on the code.  On the Uniswap router every wallet built and every swap
    submitted by [/sell] and [/buy] signs with the [privateKey] of the
    request.  On the Balancer router [/trade] signs with "0x" followed by the
    [ETH_PRIVATE_KEY] of the process environment, whatever the request
    carries. *)
Theorem signer_key_source (body query : Js.obj) :
  let pd := getParamData env body in
  Forall (signs_with (Js.get pd "privateKey")) (calls (run (sell env body)))
  /\ Forall (signs_with (Js.get pd "privateKey")) (calls (run (buy env body)))
  /\ Forall (signs_with (Js.add (Js.Str "0x") (Js.get (process_env env) "ETH_PRIVATE_KEY")))
            (calls (run (balancer_trade env query)))
  /\ head (calls (run (balancer_trade env query)))
     = Some (NewWallet (Js.add (Js.Str "0x") (Js.get (process_env env) "ETH_PRIVATE_KEY"))
                       Balancer).
Proof.
  intros pd. subst pd. unfold signs_with.
  split; [|split; [|split]].
  - explore; repeat constructor; cbn; congruence.
  - explore; repeat constructor; cbn; congruence.
  - explore; repeat constructor; cbn; congruence.
  - explore; reflexivity.
Qed.

End Signer.

(** C6 at the failing input: a Balancer trade whose request carries the key
    0xabc is signed with the key of the environment. *)
Lemma balancer_trade_ignores_request_key :
  let env := Stub.env (Ok None) (BigNumber.Fin false 5 17) in
  let query := Stub.swap "1" None in
  query !! "privateKey" = Some (Js.Str "0xabc")
  /\ calls (run (balancer_trade env query))
     = [NewWallet (Js.Str "0xe5c0") Balancer;
        GetSwaps (Js.Str "0xda10") (Js.Str "0xc0de") (BigNumber.Fin false 1 18);
        BatchSwapExactIn {| signer_key := Js.Str "0xe5c0"; provider := Balancer |}
          ["pool"] (Js.Str "0xda10") (Js.Str "0xc0de") (Js.Str "1000000000000000000")].
Proof.
  split; vm_compute; reflexivity.
Qed.

(** *** C5: direction inversion *)

Section Direction.
Context {sdk : Sdk} (env : Env).

(** C5.  [/buy-price] and [/buy] query the route with the quote token as
    tokenIn and the base token as tokenOut, and the price that [/buy]
    compares with the bound and that both return is the mid price of that
    route inverted, then printed to 8 digits.  The Balancer [/trade] queries
    from tokenIn to tokenOut and compares and returns the input amount per
    expected output, the inverse of the rate the order router answers. *)
Theorem buy_price_is_inverted (body query : Js.obj) (r : Route)
    (swaps : Swaps) (out : BigNumber.t) :
  let pd := getParamData env body in
  let maxPrice := optional_float (Js.get pd "maxPrice") in
  let inverted := Js.Str (toSignificant (invert (midPrice r)) 8) in
  let amount := BigNumber.of_number (base_units (Js.get query "amount")) in
  let qmax := optional_float (Js.get query "maxPrice") in
  let paid := Js.Number (Js.div (BigNumber.to_value amount) (BigNumber.to_value out)) in
  (calls (run (buy_price env body))
   = [FetchRoute (Js.get pd "quote") (Js.get pd "base")]
   /\ (fetch_route env (Js.get pd "quote") (Js.get pd "base") = Ok (Some r) ->
       exists resp, sent (run (buy_price env body)) = [resp]
                    /\ field "price" (json resp) = Some (Prim inverted)))
  /\
  (Forall (queries (Js.get pd "quote") (Js.get pd "base")) (calls (run (buy env body)))
   /\ (wallet_rejects env (Js.get pd "privateKey") = None ->
       fetch_route env (Js.get pd "quote") (Js.get pd "base") = Ok (Some r) ->
       executed (run (buy env body))
       = negb (Js.truthy maxPrice) || Js.le inverted maxPrice
       /\ shows inverted (run (buy env body))))
  /\
  (Forall (queries (erc20 env (Js.get query "tokenIn")) (erc20 env (Js.get query "tokenOut")))
          (calls (run (balancer_trade env query)))
   /\ (wallet_rejects env (Js.add (Js.Str "0x") (Js.get (process_env env) "ETH_PRIVATE_KEY"))
         = None ->
       getSwaps env (erc20 env (Js.get query "tokenIn"))
         (erc20 env (Js.get query "tokenOut")) amount = Ok (swaps, out) ->
       executed (run (balancer_trade env query))
       = negb (Js.truthy qmax) || Js.le paid qmax
       /\ shows paid (run (balancer_trade env query)))).
Proof.
  intros pd maxPrice inverted amount qmax paid.
  subst pd maxPrice inverted amount qmax paid. unfold shows.
  split; [|split].
  - split.
    + explore; reflexivity.
    + intros Hr. run_handler. eexists. split; reflexivity.
  - split.
    + explore; repeat constructor.
    + intros Hw Hr. split.
      * apply (buy_executed env body r Hw Hr).
      * run_handler. explore; repeat constructor; cbn; congruence.
  - split.
    + explore; repeat constructor.
    + intros Hw Hs. split.
      * apply (balancer_trade_executed env query swaps out Hw Hs).
      * run_handler. explore; repeat constructor; cbn; congruence.
Qed.

End Direction.

(** A pool quoted 0.005 base per quote, 200 quote per base. *)
Lemma buy_price_is_inverted_witness :
  let env := Stub.env (Stub.pool "0.005" "200") (BigNumber.Fin false 5 17) in
  (exists resp, sent (run (buy_price env (Stub.trade "1" None))) = [resp]
                /\ field "price" (json resp) = Some (Prim (Js.Str "200")))
  /\ executed (run (buy env (Stub.trade "1" (Some "150")))) = false
  /\ shows (Js.Number 2%float) (run (balancer_trade env (Stub.swap "1" None))).
Proof.
  intros env.
  destruct (buy_price_is_inverted env (Stub.trade "1" None) (Stub.swap "1" None)
              {| Stub.straight := "0.005"; Stub.inverted := "200" |}
              ["pool"] (BigNumber.Fin false 5 17)) as [[_ Hq] [_ [_ Ht]]].
  destruct (buy_price_is_inverted env (Stub.trade "1" (Some "150")) (Stub.swap "1" None)
              {| Stub.straight := "0.005"; Stub.inverted := "200" |}
              ["pool"] (BigNumber.Fin false 5 17)) as [_ [[_ Hb] _]].
  split; [|split].
  - apply Hq. vm_compute. reflexivity.
  - rewrite (proj1 (Hb eq_refl eq_refl)). vm_compute. reflexivity.
  - apply Ht; vm_compute; reflexivity.
Defined.

(** *** C7: failures and the catch block *)

Section Failures.
Context {sdk : Sdk} (env : Env).

(** C7, as the code has it.  A failure [e] raised inside the [try] block of a
    Uniswap handler, by the route query or by the executor, is answered once,
    with status 500 and the body [{error, message}]: [error] is [e.reason]
    when that is truthy and "operation_error" otherwise, [message] is [e]
    itself. *)
Theorem classified_failures (body : Js.obj) (r : Route) (e : Js.obj) :
  let pd := getParamData env body in
  let base := Js.get pd "base" in
  let quote := Js.get pd "quote" in
  let wallet := {| signer_key := Js.get pd "privateKey"; provider := Uniswap |} in
  let amount := BigNumber.of_number (base_units (Js.get pd "amount")) in
  let maxPrice := optional_float (Js.get pd "maxPrice") in
  let gasPrice := optional_float (Js.get pd "gasPrice") in
  (fetch_route env base quote = Throw e ->
   sent (run (sell_price env body)) = [classified e])
  /\ (fetch_route env quote base = Throw e ->
      sent (run (buy_price env body)) = [classified e])
  /\ (wallet_rejects env (Js.get pd "privateKey") = None ->
      fetch_route env base quote = Throw e ->
      sent (run (sell env body)) = [classified e])
  /\ (wallet_rejects env (Js.get pd "privateKey") = None ->
      fetch_route env quote base = Throw e ->
      sent (run (buy env body)) = [classified e])
  /\ (wallet_rejects env (Js.get pd "privateKey") = None ->
      fetch_route env base quote = Ok (Some r) ->
      negb (Js.truthy maxPrice)
      || Js.ge (Js.Str (toSignificant (midPrice r) 8)) maxPrice = true ->
      swapExactIn env wallet r base amount gasPrice = Throw e ->
      sent (run (sell env body)) = [classified e])
  /\ (wallet_rejects env (Js.get pd "privateKey") = None ->
      fetch_route env quote base = Ok (Some r) ->
      negb (Js.truthy maxPrice)
      || Js.le (Js.Str (toSignificant (invert (midPrice r)) 8)) maxPrice = true ->
      swapExactIn env wallet r quote amount gasPrice = Throw e ->
      sent (run (buy env body)) = [classified e]).
Proof.
  intros pd base quote wallet amount maxPrice gasPrice.
  subst pd base quote wallet amount maxPrice gasPrice.
  repeat split; intros; run_handler; reflexivity.
Qed.

End Failures.

(** A revert with a reason, and a time-out without one. *)
Lemma classified_failures_witness :
  let revert : Js.obj := {[ "reason" := Js.Str "transaction failed" ]} in
  let plain : Js.obj := {[ "code" := Js.Str "ETIMEDOUT" ]} in
  sent (run (sell (Stub.env (Throw revert) BigNumber.NaN) (Stub.trade "1" None)))
  = [{| status := 500;
        json := [("error", Prim (Js.Str "transaction failed")); ("message", Raw revert)] |}]
  /\ sent (run (buy_price (Stub.env (Throw plain) BigNumber.NaN) (Stub.trade "1" None)))
     = [{| status := 500;
           json := [("error", Prim (Js.Str "operation_error")); ("message", Raw plain)] |}].
Proof.
  intros revert plain. split.
  - destruct (classified_failures (Stub.env (Throw revert) BigNumber.NaN)
                (Stub.trade "1" None) {| Stub.straight := "1"; Stub.inverted := "1" |}
                revert) as [_ [_ [H _]]].
    rewrite H; vm_compute; reflexivity.
  - destruct (classified_failures (Stub.env (Throw plain) BigNumber.NaN)
                (Stub.trade "1" None) {| Stub.straight := "1"; Stub.inverted := "1" |}
                plain) as [_ [H _]].
    rewrite H; vm_compute; reflexivity.
Defined.

(** C7 as stated fails before the [try] block: [/sell] on a request without
    a [privateKey] fails in the wallet constructor, the failure escapes the
    handler and no response is sent. *)
Lemma sell_wallet_failure_unanswered :
  let env := Stub.env (Stub.pool "95" "105") BigNumber.NaN in
  let body : Js.obj := {[ "base" := Js.Str "0xba5e"; "quote" := Js.Str "0x900d";
                          "amount" := Js.Str "1" ]} in
  escaped (sell env body) = Some {[ "reason" := Js.Str "invalid private key" ]}
  /\ sent (run (sell env body)) = [].
Proof.
  split; vm_compute; reflexivity.
Qed.

(** *** C8: the metadata of a response *)

Section Metadata.
Context {sdk : Sdk} (env : Env).



End Metadata.



(** *** C9: a bound of 0 or NaN *)

Section Falsy_bound.
Context {sdk : Sdk} (env : Env).

Lemma get_delete_same (m : Js.obj) (k : string) :
  Js.get (delete k m) k = Js.Undefined.
Proof.
  unfold Js.get. rewrite lookup_delete_eq. reflexivity.
Qed.

Lemma get_delete_other (m : Js.obj) (k k' : string) :
  String.eqb k' k = false -> Js.get (delete k' m) k = Js.get m k.
Proof.
  intros H. unfold Js.get. rewrite lookup_delete_ne; [reflexivity|].
  intros E. subst k'. rewrite String.eqb_refl in H. discriminate H.
Qed.

(** A bound that reads as 0 or NaN is falsy, like a bound left out. *)
Lemma falsy_bound (v : Js.value) :
  is_nan (Js.parseFloat v) || is_zero (Js.parseFloat v) = true ->
  Js.truthy (optional_float v) = false.
Proof.
  intros H. unfold optional_float. destruct (Js.truthy v); [|reflexivity].
  unfold Js.truthy. rewrite H. reflexivity.
Qed.

Lemma absent_bound : Js.truthy (optional_float Js.Undefined) = false.
Proof. reflexivity. Qed.

Ltac forget_bound Hv :=
  unfold_handlers; cbn;
  repeat rewrite get_delete_same;
  repeat (rewrite get_delete_other by reflexivity);
  rewrite (falsy_bound _ Hv), absent_bound; cbn.

(** C9.  A trade request whose [maxPrice] reads as 0 or as NaN is handled
    exactly as the same request without [maxPrice]: same calls, same
    response, same outcome; and once the wallet is built and a route found,
    the executor is invoked whatever the price of the route. *)
Theorem falsy_bound_is_no_bound (body body' query : Js.obj) (r : Route)
    (swaps : Swaps) (out : BigNumber.t) :
  let pd := getParamData env body in
  let v := Js.get pd "maxPrice" in
  let qv := Js.get query "maxPrice" in
  (is_nan (Js.parseFloat v) || is_zero (Js.parseFloat v) = true ->
   (getParamData env body' = delete "maxPrice" pd ->
    sell env body init = sell env body' init
    /\ buy env body init = buy env body' init)
   /\ (wallet_rejects env (Js.get pd "privateKey") = None ->
       fetch_route env (Js.get pd "base") (Js.get pd "quote") = Ok (Some r) ->
       executed (run (sell env body)) = true)
   /\ (wallet_rejects env (Js.get pd "privateKey") = None ->
       fetch_route env (Js.get pd "quote") (Js.get pd "base") = Ok (Some r) ->
       executed (run (buy env body)) = true))
  /\
  (is_nan (Js.parseFloat qv) || is_zero (Js.parseFloat qv) = true ->
   balancer_trade env query init = balancer_trade env (delete "maxPrice" query) init
   /\ (wallet_rejects env (Js.add (Js.Str "0x") (Js.get (process_env env) "ETH_PRIVATE_KEY"))
         = None ->
       getSwaps env (erc20 env (Js.get query "tokenIn"))
         (erc20 env (Js.get query "tokenOut"))
         (BigNumber.of_number (base_units (Js.get query "amount"))) = Ok (swaps, out) ->
       executed (run (balancer_trade env query)) = true)).
Proof.
  intros pd v qv. subst pd v qv. split.
  - intros Hv. split; [|split].
    + intros Hpd. split.
      * unfold sell. rewrite Hpd. forget_bound Hv. reflexivity.
      * unfold buy. rewrite Hpd. forget_bound Hv. reflexivity.
    + intros Hw Hr. rewrite (sell_executed env body r Hw Hr).
      rewrite (falsy_bound _ Hv). reflexivity.
    + intros Hw Hr. rewrite (buy_executed env body r Hw Hr).
      rewrite (falsy_bound _ Hv). reflexivity.
  - intros Hv. split.
    + forget_bound Hv. reflexivity.
    + intros Hw Hs. rewrite (balancer_trade_executed env query swaps out Hw Hs).
      rewrite (falsy_bound _ Hv). reflexivity.
Qed.

End Falsy_bound.

(** Bounds of "0" and of "none". *)
Lemma falsy_bound_is_no_bound_witness :
  let env := Stub.env (Stub.pool "0.2" "5") (BigNumber.Fin false 5 17) in
  sell env (Stub.trade "1" (Some "0")) init = sell env (Stub.trade "1" None) init
  /\ executed (run (buy env (Stub.trade "1" (Some "0")))) = true
  /\ executed (run (balancer_trade env (Stub.swap "1" (Some "none")))) = true.
Proof.
  intros env.
  destruct (falsy_bound_is_no_bound env (Stub.trade "1" (Some "0")) (Stub.trade "1" None)
              (Stub.swap "1" (Some "none"))
              {| Stub.straight := "0.2"; Stub.inverted := "5" |}
              ["pool"] (BigNumber.Fin false 5 17)) as [Hu Hb].
  assert (Z : is_nan (Js.parseFloat (Js.Str "0")) || is_zero (Js.parseFloat (Js.Str "0"))
              = true) by (vm_compute; reflexivity).
  assert (N : is_nan (Js.parseFloat (Js.Str "none"))
              || is_zero (Js.parseFloat (Js.Str "none")) = true)
    by (vm_compute; reflexivity).
  destruct (Hu Z) as [He [_ Hx]]. destruct (Hb N) as [_ Hq].
  split; [|split].
  - apply He. vm_compute. reflexivity.
  - apply Hx; vm_compute; reflexivity.
  - apply Hq; vm_compute; reflexivity.
Defined.

(** *** C10: the client certificate *)

Section Certificate.
Context {sdk : Sdk} (env : Env).

(** C10.  On the router of [src/unnamed/part_000], whose first layer is the
    client-certificate check, a request whose client certificate is not
    authorized is answered by that check alone, whatever its method and
    url: 403 when the certificate has a subject, 401 when it has none; the
    clock is not read, no call is made and no route runs. *)
Theorem uniswap_router_rejects_unauthorized (req : Request) :
  authorized req = false ->
  run (uniswap_router env req)
  = {| ticks := 0;
       calls := [];
       sent := [if Js.truthy (cert_subject req)
                then {| status := 403; json := [("error", Prim (ssl_cert_invalid env))] |}
                else {| status := 401; json := [("error", Prim (ssl_cert_required env))] |}] |}.
Proof.
  intros Ha. unfold run, uniswap_router. rewrite Ha.
  destruct (Js.truthy (cert_subject req)); reflexivity.
Qed.

End Certificate.

(** A client without a certificate, and one with a certificate of an unknown
    authority. *)
Lemma uniswap_router_rejects_unauthorized_witness :
  let env := Stub.env (Stub.pool "95" "105") BigNumber.NaN in
  let anonymous := {| authorized := false; cert_subject := Js.Undefined;
                      method := "POST"; url := "/sell";
                      req_body := Stub.trade "1" None; req_query := ∅ |} in
  let stranger := {| authorized := false; cert_subject := Js.Str "CN=stranger";
                     method := "POST"; url := "/sell";
                     req_body := Stub.trade "1" None; req_query := ∅ |} in
  run (uniswap_router env anonymous)
  = {| ticks := 0; calls := [];
       sent := [{| status := 401;
                   json := [("error", Prim (Js.Str "SSL Certificate required"))] |}] |}
  /\ run (uniswap_router env stranger)
     = {| ticks := 0; calls := [];
          sent := [{| status := 403;
                      json := [("error", Prim (Js.Str "Invalid SSL Certificate"))] |}] |}.
Proof.
  intros env anonymous stranger. split.
  - rewrite (uniswap_router_rejects_unauthorized env anonymous eq_refl). reflexivity.
  - rewrite (uniswap_router_rejects_unauthorized env stranger eq_refl). reflexivity.
Defined.

(** *** The scenarios of the spec *)

(** Scenario A: a quote for selling 0.1 at a mid price of "150.00000". *)
Example scenario_A :
  sent (run (sell_price (Stub.env (Stub.pool "150.00000" "0.0066666667") BigNumber.NaN)
                        (Stub.trade "0.1" None)))
  = [{| status := 200;
        json := [("network", Prim (Js.Str "kovan"));
                 ("timestamp", Prim (Js.Number 1000));
                 ("latency", Prim (Js.Number 250));
                 ("base", Prim (Js.Str "0xba5e"));
                 ("quote", Prim (Js.Str "0x900d"));
                 ("amount", Prim (Js.Number (Js.ToNumber (Js.Str "0.1"))));
                 ("expectedOut", Prim (Js.Number 15));
                 ("price", Prim (Js.Str "150.00000"));
                 ("swaps", RoutePath ["pair"])] |}].
Proof. vm_compute. reflexivity. Qed.

(** Scenario C: buying 1 without a bound at a price of 200 hands the
    executor 10^18 base units of the quote token. *)
Example scenario_C :
  calls (run (buy (Stub.env (Stub.pool "0.005" "200") BigNumber.NaN)
                  (Stub.trade "1" None)))
  = [NewWallet (Js.Str "0xabc") Uniswap;
     FetchRoute (Js.Str "0x900d") (Js.Str "0xba5e");
     SwapExactIn {| signer_key := Js.Str "0xabc"; provider := Uniswap |}
       {| Stub.straight := "0.005"; Stub.inverted := "200" |}
       (Js.Str "0x900d") (BigNumber.Fin false 1 18) Js.Undefined].
Proof. vm_compute. reflexivity. Qed.

(** ** More of the code: the bootstrap of index.js *)

Section Bootstrap.

Lemma append_String (c : ascii) (s t : string) :
  String c s +:+ t = String c (s +:+ t).
Proof. reflexivity. Qed.

Lemma append_assoc (a b c : string) : (a +:+ b) +:+ c = a +:+ (b +:+ c).
Proof.
  induction a as [|x a IH]; [reflexivity|].
  rewrite !append_String, IH. reflexivity.
Qed.

Lemma has_space_append (a b : string) :
  has_space (a +:+ b) = has_space a || has_space b.
Proof.
  induction a as [|c a IH]; [reflexivity|].
  rewrite append_String. simpl. rewrite IH, orb_assoc. reflexivity.
Qed.

Lemma has_space_after_space (front tail : string) :
  ends_in " " front = true -> has_space (front +:+ tail) = true.
Proof.
  induction front as [|c front IH]; [discriminate|].
  intros H. rewrite append_String. simpl. destruct front as [|d front].
  - simpl in H. rewrite H. reflexivity.
  - rewrite IH; [apply orb_true_r | exact H].
Qed.

(** The words [split] cuts: the last one has no space and ends the string,
    after nothing or after a space. *)
Lemma split_last_word (s : string) :
  exists (ws : list string) (w front : string),
    Index.split " " s = (ws ++ [w])%list
    /\ has_space w = false
    /\ s = front +:+ w
    /\ ((ws = [] /\ front = "") \/ (ws <> [] /\ ends_in " " front = true)).
Proof.
  induction s as [|c s IH].
  - exists [], "", "". repeat split; auto.
  - destruct IH as (ws & w & front & Hs & Hw & Hf & Hc). simpl.
    destruct (Ascii.eqb c " ") eqn:Ec.
    + apply Ascii.eqb_eq in Ec. subst c.
      exists ("" :: ws), w, (String " " front). rewrite Hs.
      repeat split; auto.
      * rewrite append_String, <- Hf. reflexivity.
      * right. split; [discriminate|].
        destruct Hc as [[_ ->]|[_ He]]; [reflexivity|].
        destruct front; [discriminate He | exact He].
    + rewrite Hs. destruct Hc as [[-> ->]|[Hne He]].
      * exists [], (String c w), "". simpl. rewrite Ec, Hw.
        repeat split; auto. rewrite Hf. reflexivity.
      * destruct ws as [|u us]; [congruence|].
        exists (String c u :: us), w, (String c front). simpl.
        repeat split; auto.
        -- rewrite append_String, <- Hf. reflexivity.
        -- right. split; [discriminate|].
           destruct front; [discriminate He | exact He].
Qed.

Lemma lookup_last (ws : list string) (w : string) :
  (ws ++ [w])%list !! (length (ws ++ [w])%list - 1)%nat = Some w.
Proof.
  apply list_lookup_middle. rewrite length_app. simpl. lia.
Qed.

(** X1.  [lastword] always returns a string, never [undefined]: a word
    without a space that ends [words], after nothing or after a space. *)
Theorem lastword_ends_words (words : string) :
  exists front w : string,
    Index.lastword words = Js.Str w
    /\ words = front +:+ w
    /\ has_space w = false
    /\ (front = "" \/ ends_in " " front = true).
Proof.
  destruct (split_last_word words) as (ws & w & front & Hs & Hw & Hf & Hc).
  exists front, w. unfold Index.lastword. rewrite Hs, lookup_last.
  repeat split; auto. destruct Hc as [[_ H]|[_ H]]; auto.
Qed.

Lemma split_after_space (a b : string) :
  Index.split " " (a +:+ String " " b)
  = (Index.split " " a ++ Index.split " " b)%list.
Proof.
  induction a as [|c a IH]; [reflexivity|].
  rewrite append_String. simpl. rewrite IH.
  destruct (Ascii.eqb c " "); [reflexivity|].
  destruct (split_last_word a) as (ws & w & _ & Hs & _).
  rewrite Hs. destruct ws; reflexivity.
Qed.

(** X2.  [lastword] reads what follows the last space: a word put after a
    space hides what came before, and a string without a space is returned
    whole. *)
Theorem lastword_after_space (a b : string) :
  Index.lastword (a +:+ " " +:+ b) = Index.lastword b
  /\ (has_space b = false -> Index.lastword b = Js.Str b).
Proof.
  split.
  - unfold Index.lastword.
    change (" " +:+ b) with (String " " b). rewrite split_after_space.
    destruct (split_last_word b) as (ws & w & _ & Hs & _).
    rewrite Hs, app_assoc, !lookup_last. reflexivity.
  - intros Hb. unfold Index.lastword.
    destruct (split_last_word b) as (ws & w & front & Hs & _ & Hf & Hc).
    rewrite Hs, lookup_last. destruct Hc as [[_ ->]|[_ He]].
    + rewrite Hf. reflexivity.
    + rewrite Hf, (has_space_after_space _ _ He) in Hb. discriminate Hb.
Qed.

(** The last word of a line of netstat, and a word on its own. *)
Lemma lastword_after_space_witness :
  Index.lastword ("tcp 0 0 :::5000 LISTEN" +:+ " " +:+ "1234/node")
  = Index.lastword "1234/node"
  /\ Index.lastword "1234/node" = Js.Str "1234/node".
Proof.
  destruct (lastword_after_space "tcp 0 0 :::5000 LISTEN" "1234/node") as [H1 H2].
  split; [exact H1 | apply H2; reflexivity].
Defined.

Lemma drop_final_slash_append (p : string) : Index.drop_final_slash (p +:+ "/") = p.
Proof.
  induction p as [|c p IH]; [reflexivity|].
  rewrite append_String. simpl. rewrite IH.
  destruct p; reflexivity.
Qed.

Lemma drop_final_slash_none (s : string) :
  ends_in "/" s = false -> Index.drop_final_slash s = s.
Proof.
  induction s as [|c s IH]; [reflexivity|].
  intros Hn. simpl. destruct s as [|d s].
  - simpl in Hn. rewrite Hn. reflexivity.
  - rewrite IH; [reflexivity | exact Hn].
Qed.

Lemma append_not_empty (p t : string) : t <> "" -> String.eqb (p +:+ t) "" = false.
Proof.
  intros Ht. destruct p as [|c p]; [|reflexivity].
  destruct t; [congruence|reflexivity].
Qed.

(** X3.  The final slash of the configured certificate directory is
    immaterial: [dir] and [dir/] resolve to the same directory, in which
    the three files are read; of two final slashes only one is dropped. *)
Theorem certPath_final_slash (dir : string) :
  dir <> "" -> ends_in "/" dir = false ->
  Index.certPath (Js.Str dir) = Ok dir
  /\ Index.certPath (Js.Str (dir +:+ "/")) = Ok dir
  /\ Index.certPath (Js.Str (dir +:+ "/" +:+ "/")) = Ok (dir +:+ "/").
Proof.
  intros Hd Hs. unfold Index.certPath. simpl.
  assert (String.eqb dir "" = false) as ->
    by (destruct dir; [congruence|reflexivity]).
  rewrite !append_not_empty by discriminate.
  rewrite (drop_final_slash_none dir Hs), drop_final_slash_append.
  rewrite <- (append_assoc dir "/" "/"), drop_final_slash_append.
  repeat split.
Qed.

Lemma certPath_final_slash_witness :
  Index.certPath (Js.Str "/etc/gateway/certs") = Ok "/etc/gateway/certs"
  /\ Index.certPath (Js.Str ("/etc/gateway/certs" +:+ "/")) = Ok "/etc/gateway/certs"
  /\ Index.certPath (Js.Str ("/etc/gateway/certs" +:+ "/" +:+ "/"))
     = Ok ("/etc/gateway/certs" +:+ "/").
Proof.
  apply certPath_final_slash; [discriminate | reflexivity].
Defined.

(** X4.  Only a missing [CERT_PATH] and the empty string fall back on
    "./certs".  A [null] path is not caught by the test, which asks for
    [typeof certPath === "undefined"]: like every value that is neither
    undefined nor a string, it stops the bootstrap with a TypeError. *)
Theorem certPath_default_and_failure (configured : Js.value) :
  Index.certPath Js.Undefined = Ok "./certs"
  /\ Index.certPath (Js.Str "") = Ok "./certs"
  /\ ((exists e, Index.certPath configured = Throw e)
      <-> configured <> Js.Undefined /\ forall s, configured <> Js.Str s).
Proof.
  split; [reflexivity|]. split; [reflexivity|]. split.
  - intros [e He]. destruct configured as [| |b|x|s]; try (split; congruence).
    + discriminate He.
    + unfold Index.certPath in He. simpl in He.
      destruct (String.eqb s ""); discriminate He.
  - intros [Hu Hs]. destruct configured as [| |b|x|s].
    + congruence.
    + eexists. reflexivity.
    + eexists. reflexivity.
    + eexists. reflexivity.
    + exfalso. apply (Hs s). reflexivity.
Qed.

Lemma parseFloat_blank (s : string) :
  Js.trim_left s = "" -> Js.parseFloat (Js.Str s) = nan.
Proof.
  intros H. unfold Js.parseFloat. change (Js.ToString (Js.Str s)) with s.
  rewrite H. reflexivity.
Qed.

(** X5.  [isNumeric] refuses the empty string and every string of white
    space, although [Number] reads them as 0: the empty output of a command
    is never taken for a pid. *)
Theorem isNumeric_blank (s : string) :
  Js.trim_left s = "" ->
  Js.ToNumber (Js.Str s) = zero /\ Index.isNumeric (Js.Str s) = false.
Proof.
  intros H. split.
  - unfold Js.ToNumber, Js.string_to_number. rewrite H. reflexivity.
  - unfold Index.isNumeric. rewrite (parseFloat_blank s H).
    apply andb_false_r.
Qed.

Lemma isNumeric_blank_witness :
  Js.ToNumber (Js.Str "  ") = zero /\ Index.isNumeric (Js.Str "  ") = false.
Proof.
  apply isNumeric_blank. reflexivity.
Defined.

(** X6.  On a string that [isNumeric] accepts and that does not start with
    a [0x], [0o] or [0b] prefix, [parseFloat] and [Number] read the same
    number: nothing follows the number in the string but white space. *)
Theorem isNumeric_reads_whole_string (s : string) :
  Index.isNumeric (Js.Str s) = true ->
  Js.read_prefixed (Js.trim_left s) = None ->
  Js.parseFloat (Js.Str s) = Js.ToNumber (Js.Str s)
  /\ exists x rest, Js.read_decimal (Js.trim_left s) = Some (x, rest)
                    /\ Js.trim_left rest = "".
Proof.
  unfold Index.isNumeric, Index.isNaN.
  change (Js.ToNumber (Js.Number (Js.parseFloat (Js.Str s))))
    with (Js.parseFloat (Js.Str s)).
  unfold Js.parseFloat, Js.ToNumber, Js.string_to_number.
  change (Js.ToString (Js.Str s)) with s.
  intros Hn Hp. rewrite Hp in *.
  destruct (String.eqb (Js.trim_left s) "") eqn:Eb.
  { apply String.eqb_eq in Eb. rewrite Eb in Hn. vm_compute in Hn.
    discriminate Hn. }
  destruct (Js.read_decimal (Js.trim_left s)) as [[x rest]|].
  - destruct (String.eqb (Js.trim_left rest) "") eqn:Er.
    + split; [reflexivity|]. exists x, rest. split; [reflexivity|].
      apply String.eqb_eq. exact Er.
    + discriminate Hn.
  - discriminate Hn.
Qed.

Lemma isNumeric_reads_whole_string_witness :
  Js.parseFloat (Js.Str " 5000 ") = Js.ToNumber (Js.Str " 5000 ")
  /\ exists x rest, Js.read_decimal (Js.trim_left " 5000 ") = Some (x, rest)
                    /\ Js.trim_left rest = "".
Proof.
  apply isNumeric_reads_whole_string; vm_compute; reflexivity.
Defined.



Section Running_facts.
Variable toLowerCase : string -> string.


(** X9.  [isRunning] hands [exec] a command only for a numeric query on
    win32, darwin or linux.  For a query that is not numeric, a process
    name, the command is empty, whatever the platform. *)
Theorem isRunning_cmd_empty (platform : string) (query : Js.value) :
  Index.isRunning_cmd platform query = ""
  <-> Index.isNumeric query = false
      \/ (platform <> "win32" /\ platform <> "darwin" /\ platform <> "linux").
Proof.
  unfold Index.isRunning_cmd.
  destruct (Index.isNumeric query); [|split; auto].
  destruct (String.eqb_spec platform "win32") as [->|Hw].
  { split; [discriminate | intros [H|[H _]]; congruence]. }
  destruct (String.eqb_spec platform "darwin") as [->|Hd].
  { split; [discriminate | intros [H|[_ [H _]]]; congruence]. }
  destruct (String.eqb_spec platform "linux") as [->|Hl].
  { split; [discriminate | intros [H|[_ [_ H]]]; congruence]. }
  split; auto.
Qed.

End Running_facts.


Lemma strict_eq_Str (v : Js.value) (s : string) :
  Index.strict_eq v (Js.Str s) = true <-> v = Js.Str s.
Proof.
  destruct v as [| |b|x|t]; simpl; try (split; [discriminate|congruence]).
  rewrite String.eqb_eq. split; congruence.
Qed.

(** X10.  [onError] ends the process, with code 1, exactly for the errors
    of [listen] whose code is EACCES or EADDRINUSE; every other error is
    thrown again, unchanged. *)
Theorem onError_exits_or_rethrows (port : Js.value) (error : Js.obj) :
  ((exists line code, Index.onError port error = Index.Exited line code)
   <-> Js.get error "syscall" = Js.Str "listen"
       /\ (Js.get error "code" = Js.Str "EACCES"
           \/ Js.get error "code" = Js.Str "EADDRINUSE"))
  /\ (forall line code, Index.onError port error = Index.Exited line code -> code = 1)
  /\ (forall e, Index.onError port error = Index.Thrown e -> e = error).
Proof.
  unfold Index.onError.
  destruct (Index.strict_eq (Js.get error "syscall") (Js.Str "listen")) eqn:Es;
    destruct (Index.strict_eq (Js.get error "code") (Js.Str "EACCES")) eqn:Ea;
    destruct (Index.strict_eq (Js.get error "code") (Js.Str "EADDRINUSE")) eqn:Eu;
    simpl;
    repeat match goal with
      | H : Index.strict_eq _ _ = true |- _ => apply strict_eq_Str in H
      | H : Index.strict_eq ?v (Js.Str ?s) = false |- _ =>
          assert (v <> Js.Str s)
            by (intros K; apply strict_eq_Str in K; congruence);
          clear H
      end;
    (split; [split; [intros (l & c & Hx); try discriminate Hx; auto
                    | intros [Hy [Hz|Hz]]; try congruence; eauto]
            | split; intros; congruence]).
Qed.

End Bootstrap.

(** ** More of the code: the two routers *)

Ltac split_ifs :=
  repeat match goal with
    | |- context [if ?b then _ else _] => destruct b eqn:?; cbn
    end.

Section Routers.
Context {sdk : Sdk} (env : Env).

(** X11.  The three quote handlers are read-only: whatever the services
    answer, the only call they make is the one route query; no wallet is
    built and nothing is submitted. *)
Theorem quotes_only_query (body query : Js.obj) :
  let pd := getParamData env body in
  calls (run (sell_price env body))
  = [FetchRoute (Js.get pd "base") (Js.get pd "quote")]
  /\ calls (run (buy_price env body))
     = [FetchRoute (Js.get pd "quote") (Js.get pd "base")]
  /\ calls (run (balancer_price env query))
     = [GetSwaps (erc20 env (Js.get query "tokenIn")) (erc20 env (Js.get query "tokenOut"))
          (BigNumber.of_number (base_units (Js.get query "amount")))].
Proof.
  intros pd. subst pd. repeat split; explore; reflexivity.
Qed.

(** X12.  The calls of a trade, in order: the wallet, the route query, and
    then at most one swap.  A swap is submitted once, never retried, only
    with the route the query returned and only when the guard passes:
    [/sell] spends the base token, [/buy] the quote token, both the
    amount [parseInt(amount * 1e18)] at the parsed [gasPrice]. *)
Theorem trade_call_sequence (body : Js.obj) :
  let pd := getParamData env body in
  let base := Js.get pd "base" in
  let quote := Js.get pd "quote" in
  let key := Js.get pd "privateKey" in
  let wallet := {| signer_key := key; provider := Uniswap |} in
  let amount := BigNumber.of_number (base_units (Js.get pd "amount")) in
  let maxPrice := optional_float (Js.get pd "maxPrice") in
  let gasPrice := optional_float (Js.get pd "gasPrice") in
  (calls (run (sell env body)) `prefix_of` [NewWallet key Uniswap; FetchRoute base quote]
   \/ exists r,
        fetch_route env base quote = Ok (Some r)
        /\ negb (Js.truthy maxPrice)
           || Js.ge (Js.Str (toSignificant (midPrice r) 8)) maxPrice = true
        /\ calls (run (sell env body))
           = [NewWallet key Uniswap; FetchRoute base quote;
              SwapExactIn wallet r base amount gasPrice])
  /\
  (calls (run (buy env body)) `prefix_of` [NewWallet key Uniswap; FetchRoute quote base]
   \/ exists r,
        fetch_route env quote base = Ok (Some r)
        /\ negb (Js.truthy maxPrice)
           || Js.le (Js.Str (toSignificant (invert (midPrice r)) 8)) maxPrice = true
        /\ calls (run (buy env body))
           = [NewWallet key Uniswap; FetchRoute quote base;
              SwapExactIn wallet r quote amount gasPrice]).
Proof.
  intros pd base quote key wallet amount maxPrice gasPrice.
  subst pd base quote key wallet amount maxPrice gasPrice.
  split; explore;
    solve [ left; eexists; reflexivity
          | right; eexists; repeat split; eassumption ].
Qed.

(** X13.  The Uniswap handlers answer exactly once: the three handlers
    without a wallet always, [/sell] and [/buy] whenever the wallet is
    built, in every case of route, guard and swap.  When the wallet
    constructor throws, they answer nothing and the error escapes. *)
Theorem uniswap_answers_once (body : Js.obj) :
  let key := Js.get (getParamData env body) "privateKey" in
  length (sent (run (root env))) = 1%nat
  /\ length (sent (run (sell_price env body))) = 1%nat
  /\ length (sent (run (buy_price env body))) = 1%nat
  /\ (wallet_rejects env key = None ->
      length (sent (run (sell env body))) = 1%nat
      /\ length (sent (run (buy env body))) = 1%nat
      /\ escaped (sell env body) = None /\ escaped (buy env body) = None)
  /\ (forall e, wallet_rejects env key = Some e ->
      sent (run (sell env body)) = [] /\ sent (run (buy env body)) = []
      /\ escaped (sell env body) = Some e /\ escaped (buy env body) = Some e).
Proof.
  intros key. subst key.
  split; [reflexivity|].
  split; [explore; reflexivity|].
  split; [explore; reflexivity|].
  split.
  - intros Hw. repeat split; run_handler; explore; reflexivity.
  - intros e Hw. repeat split; run_handler; reflexivity.
Qed.

(** X14.  When the swap returns a receipt, [/sell] and [/buy] answer 200
    with the hash, the status and the gas of the receipt, whatever that
    status is: a transaction that failed on chain is reported in the body,
    not by the status of the response. *)
Theorem trade_reports_receipt (body : Js.obj) (r : Route) (txObj : Js.obj) :
  let pd := getParamData env body in
  let base := Js.get pd "base" in
  let quote := Js.get pd "quote" in
  let wallet := {| signer_key := Js.get pd "privateKey"; provider := Uniswap |} in
  let amount := BigNumber.of_number (base_units (Js.get pd "amount")) in
  let maxPrice := optional_float (Js.get pd "maxPrice") in
  let gasPrice := optional_float (Js.get pd "gasPrice") in
  let reports (w : World) :=
    exists resp, sent w = [resp]
      /\ status resp = 200
      /\ field "error" (json resp) = None
      /\ field "txHash" (json resp) = Some (Prim (Js.get txObj "transactionHash"))
      /\ field "status" (json resp) = Some (Prim (Js.get txObj "status"))
      /\ field "gasUsed" (json resp)
         = Some (Prim (Js.Number (Js.parseInt (Js.get txObj "gasUsed")))) in
  wallet_rejects env (Js.get pd "privateKey") = None ->
  (fetch_route env base quote = Ok (Some r) ->
   negb (Js.truthy maxPrice)
   || Js.ge (Js.Str (toSignificant (midPrice r) 8)) maxPrice = true ->
   swapExactIn env wallet r base amount gasPrice = Ok txObj ->
   reports (run (sell env body)))
  /\
  (fetch_route env quote base = Ok (Some r) ->
   negb (Js.truthy maxPrice)
   || Js.le (Js.Str (toSignificant (invert (midPrice r)) 8)) maxPrice = true ->
   swapExactIn env wallet r quote amount gasPrice = Ok txObj ->
   reports (run (buy env body))).
Proof.
  intros pd base quote wallet amount maxPrice gasPrice reports.
  subst pd base quote wallet amount maxPrice gasPrice reports. cbv beta.
  intros Hw. split; intros Hr Hg Hx; run_handler;
    eexists; repeat split; reflexivity.
Qed.

(** X15.  A trade without [amount] is not refused: with the wallet built,
    a route found and no bound, [/sell] and [/buy] submit the swap with
    the amount NaN. *)
Theorem trade_without_amount (body : Js.obj) (r : Route) :
  let pd := getParamData env body in
  let base := Js.get pd "base" in
  let quote := Js.get pd "quote" in
  let key := Js.get pd "privateKey" in
  let wallet := {| signer_key := key; provider := Uniswap |} in
  let gasPrice := optional_float (Js.get pd "gasPrice") in
  pd !! "amount" = None ->
  pd !! "maxPrice" = None ->
  wallet_rejects env key = None ->
  (fetch_route env base quote = Ok (Some r) ->
   calls (run (sell env body))
   = [NewWallet key Uniswap; FetchRoute base quote;
      SwapExactIn wallet r base BigNumber.NaN gasPrice])
  /\
  (fetch_route env quote base = Ok (Some r) ->
   calls (run (buy env body))
   = [NewWallet key Uniswap; FetchRoute quote base;
      SwapExactIn wallet r quote BigNumber.NaN gasPrice]).
Proof.
  intros pd base quote key wallet gasPrice.
  subst pd base quote key wallet gasPrice. intros Ha Hm Hw.
  assert (Js.get (getParamData env body) "amount" = Js.Undefined) as Ea
    by (unfold Js.get; rewrite Ha; reflexivity).
  assert (optional_float (Js.get (getParamData env body) "maxPrice") = Js.Undefined) as Em
    by (apply optional_float_absent; exact Hm).
  assert (BigNumber.of_number (base_units Js.Undefined) = BigNumber.NaN) as En
    by (vm_compute; reflexivity).
  split; intros Hr; run_handler; rewrite Em, Ea, En; cbn; case_oracles; reflexivity.
Qed.

End Routers.

Section Routers_more.
Context {sdk : Sdk} (env : Env).

Ltac tame_cases :=
  unfold tame, known_status, error_shaped;
  explore; (split; [cbn; lia|]); cbn;
  repeat (apply List.Forall_cons;
          [ split;
            [ cbn; auto 8
            | cbn; first [ intros K; exfalso; apply K; reflexivity
                         | intros _; split; [discriminate | reflexivity] ] ]
          | ]);
  apply List.Forall_nil.

Lemma tame_handlers (body : Js.obj) :
  tame (run (root env)) /\ tame (run (sell_price env body))
  /\ tame (run (buy_price env body)) /\ tame (run (sell env body))
  /\ tame (run (buy env body)) /\ tame (run (ret tt)).
Proof.
  split; [tame_cases|]. split; [tame_cases|]. split; [tame_cases|].
  split; [tame_cases|]. split; [tame_cases|].
  unfold tame. cbn. split; [lia | constructor].
Qed.

(** X16.  Whatever the request and the services, the Uniswap router sends
    at most one response, its status is 200, 401, 403 or 500, and a status
    other than 200 comes with an [error] field and no price. *)
Theorem uniswap_router_responses (req : Request) :
  (length (sent (run (uniswap_router env req))) <= 1)%nat
  /\ Forall (fun r => known_status r /\ error_shaped r)
            (sent (run (uniswap_router env req))).
Proof.
  change (tame (run (uniswap_router env req))).
  destruct (tame_handlers (req_body req)) as (T0 & T1 & T2 & T3 & T4 & T5).
  unfold uniswap_router, uniswap_routes.
  destruct (authorized req).
  - repeat match goal with
      | |- context [if ?b then _ else _] => destruct b
      end; assumption.
  - destruct (Js.truthy (cert_subject req)); tame_cases.
Qed.

(** X17.  The Balancer router never reports a failure: it sends at most
    one response and its status is always 200.  When [getSwaps] throws,
    [/price] and [/trade] send nothing and the error escapes the handler;
    when [batchSwapExactIn] throws, the swap has been submitted and the
    client is left without an answer. *)
Theorem balancer_router_responses (req : Request) (query : Js.obj) (e : Js.obj) :
  let tokenIn := erc20 env (Js.get query "tokenIn") in
  let tokenOut := erc20 env (Js.get query "tokenOut") in
  let amount := BigNumber.of_number (base_units (Js.get query "amount")) in
  let key := Js.add (Js.Str "0x") (Js.get (process_env env) "ETH_PRIVATE_KEY") in
  ((length (sent (run (balancer_router env req))) <= 1)%nat
   /\ Forall (fun r => status r = 200) (sent (run (balancer_router env req))))
  /\ (getSwaps env tokenIn tokenOut amount = Throw e ->
      sent (run (balancer_price env query)) = []
      /\ escaped (balancer_price env query) = Some e
      /\ (wallet_rejects env key = None ->
          sent (run (balancer_trade env query)) = []
          /\ escaped (balancer_trade env query) = Some e
          /\ executed (run (balancer_trade env query)) = false))
  /\ (forall swaps out,
      wallet_rejects env key = None ->
      getSwaps env tokenIn tokenOut amount = Ok (swaps, out) ->
      negb (Js.truthy (optional_float (Js.get query "maxPrice")))
      || Js.le (Js.Number (Js.div (BigNumber.to_value amount) (BigNumber.to_value out)))
               (optional_float (Js.get query "maxPrice")) = true ->
      batchSwapExactIn env {| signer_key := key; provider := Balancer |} swaps
        tokenIn tokenOut (Js.Str (Num.to_string (base_units (Js.get query "amount"))))
        = Throw e ->
      sent (run (balancer_trade env query)) = []
      /\ escaped (balancer_trade env query) = Some e
      /\ executed (run (balancer_trade env query)) = true).
Proof.
  intros tokenIn tokenOut amount key. subst tokenIn tokenOut amount key.
  split; [|split].
  - unfold balancer_router.
    repeat match goal with
      | |- context [if ?b then _ else _] => destruct b
      end;
      explore; (split; [cbn; lia | repeat constructor]).
  - intros Hs. split; [run_handler; reflexivity|].
    split; [run_handler; reflexivity|].
    intros Hw. repeat split; run_handler; reflexivity.
  - intros swaps out Hw Hs Hg Hb. repeat split; run_handler; reflexivity.
Qed.

(** X20.  A trade shows what the quote showed.  For the same request and
    the same route, every result of [/sell] carries the price, the expected
    output, the amount and the tokens of the [/sell-price] answer, and
    [/buy] those of [/buy-price]; on the Balancer router [/trade] carries
    the price, the amount and the tokens of [/price]. *)
Theorem trade_agrees_with_quote (body query : Js.obj) (r : Route)
    (swaps : Swaps) (out : BigNumber.t) :
  let pd := getParamData env body in
  (fetch_route env (Js.get pd "base") (Js.get pd "quote") = Ok (Some r) ->
   exists quoted, sent (run (sell_price env body)) = [quoted]
     /\ agrees_on ["network"; "base"; "quote"; "amount"; "expectedOut"; "price"]
                  quoted (run (sell env body)))
  /\
  (fetch_route env (Js.get pd "quote") (Js.get pd "base") = Ok (Some r) ->
   exists quoted, sent (run (buy_price env body)) = [quoted]
     /\ agrees_on ["network"; "base"; "quote"; "amount"; "expectedIn"; "price"]
                  quoted (run (buy env body)))
  /\
  (getSwaps env (erc20 env (Js.get query "tokenIn")) (erc20 env (Js.get query "tokenOut"))
     (BigNumber.of_number (base_units (Js.get query "amount"))) = Ok (swaps, out) ->
   exists quoted, sent (run (balancer_price env query)) = [quoted]
     /\ agrees_on ["network"; "tokenIn"; "tokenOut"; "amount"; "price"]
                  quoted (run (balancer_trade env query))).
Proof.
  intros pd. subst pd. unfold agrees_on.
  split; [|split]; intros Hr;
    (eexists; split; [run_handler; reflexivity|]);
    explore; repeat constructor; intros k f Hk Hf; cbn in Hk;
    repeat (destruct Hk as [<-|Hk]; [cbn in Hf |- *; congruence|]);
    destruct Hk.
Qed.

End Routers_more.

Section Balancer_trades.
Context {sdk : Sdk} (env : Env).

(** X21.  The calls of a Balancer trade, in order: the wallet, the swaps
    query, and then at most one batch swap, submitted only when the guard
    passes, with the swaps the query returned and the amount
    [parseInt(amount * 1e18)] printed as a string. *)
Theorem balancer_trade_call_sequence (query : Js.obj) :
  let tokenIn := erc20 env (Js.get query "tokenIn") in
  let tokenOut := erc20 env (Js.get query "tokenOut") in
  let amount := BigNumber.of_number (base_units (Js.get query "amount")) in
  let amountString := Js.Str (Num.to_string (base_units (Js.get query "amount"))) in
  let key := Js.add (Js.Str "0x") (Js.get (process_env env) "ETH_PRIVATE_KEY") in
  let wallet := {| signer_key := key; provider := Balancer |} in
  let maxPrice := optional_float (Js.get query "maxPrice") in
  calls (run (balancer_trade env query))
    `prefix_of` [NewWallet key Balancer; GetSwaps tokenIn tokenOut amount]
  \/ (exists swaps out line,
        getSwaps env tokenIn tokenOut amount = Ok (swaps, out)
        /\ negb (Js.truthy maxPrice)
           || Js.le (Js.Number (Js.div (BigNumber.to_value amount) (BigNumber.to_value out)))
                    maxPrice = false
        /\ calls (run (balancer_trade env query))
           = [NewWallet key Balancer; GetSwaps tokenIn tokenOut amount; ConsoleLog line])
  \/ (exists swaps out,
        getSwaps env tokenIn tokenOut amount = Ok (swaps, out)
        /\ negb (Js.truthy maxPrice)
           || Js.le (Js.Number (Js.div (BigNumber.to_value amount) (BigNumber.to_value out)))
                    maxPrice = true
        /\ calls (run (balancer_trade env query))
           = [NewWallet key Balancer; GetSwaps tokenIn tokenOut amount;
              BatchSwapExactIn wallet swaps tokenIn tokenOut amountString]).
Proof.
  intros tokenIn tokenOut amount amountString key wallet maxPrice.
  subst tokenIn tokenOut amount amountString key wallet maxPrice.
  explore;
    solve [ left; eexists; reflexivity
          | right; left; do 3 eexists; repeat split; eassumption
          | right; right; do 2 eexists; repeat split; eassumption ].
Qed.

End Balancer_trades.

(** *** The routers on concrete requests *)

(** A sale with a wallet, and one without a key. *)
Lemma uniswap_answers_once_witness :
  let env := Stub.env (Stub.pool "95" "105") BigNumber.NaN in
  length (sent (run (sell env (Stub.trade "1" (Some "100"))))) = 1%nat
  /\ sent (run (buy env (delete "privateKey" (Stub.trade "1" None)))) = [].
Proof.
  intros env.
  destruct (uniswap_answers_once env (Stub.trade "1" (Some "100")))
    as (_ & _ & _ & Hw & _).
  destruct (uniswap_answers_once env (delete "privateKey" (Stub.trade "1" None)))
    as (_ & _ & _ & _ & Hn).
  split.
  - apply Hw. vm_compute. reflexivity.
  - apply (Hn {[ "reason" := Js.Str "invalid private key" ]}). vm_compute. reflexivity.
Defined.

(** A sale of 1 at 95 without a bound, answered with the receipt. *)
Lemma trade_reports_receipt_witness :
  let env := Stub.env (Stub.pool "95" "105") BigNumber.NaN in
  exists resp, sent (run (sell env (Stub.trade "1" None))) = [resp]
    /\ status resp = 200
    /\ field "error" (json resp) = None
    /\ field "txHash" (json resp) = Some (Prim (Js.get Stub.receipt "transactionHash"))
    /\ field "status" (json resp) = Some (Prim (Js.get Stub.receipt "status"))
    /\ field "gasUsed" (json resp)
       = Some (Prim (Js.Number (Js.parseInt (Js.get Stub.receipt "gasUsed")))).
Proof.
  intros env.
  apply (trade_reports_receipt env (Stub.trade "1" None)
           {| Stub.straight := "95"; Stub.inverted := "105" |} Stub.receipt);
    vm_compute; reflexivity.
Defined.

(** A purchase whose request names the tokens and the key only. *)
Lemma trade_without_amount_witness :
  let env := Stub.env (Stub.pool "0.005" "200") BigNumber.NaN in
  let body : Js.obj := delete "amount" (Stub.trade "1" None) in
  calls (run (buy env body))
  = [NewWallet (Js.Str "0xabc") Uniswap;
     FetchRoute (Js.Str "0x900d") (Js.Str "0xba5e");
     SwapExactIn {| signer_key := Js.Str "0xabc"; provider := Uniswap |}
       {| Stub.straight := "0.005"; Stub.inverted := "200" |}
       (Js.Str "0x900d") BigNumber.NaN Js.Undefined].
Proof.
  intros env body.
  apply (trade_without_amount env body
           {| Stub.straight := "0.005"; Stub.inverted := "200" |});
    vm_compute; reflexivity.
Defined.

(** An order router that times out, and a batch swap that reverts. *)
Lemma balancer_router_responses_witness :
  let timeout : Js.obj := {[ "code" := Js.Str "ETIMEDOUT" ]} in
  let down := Stub.env_with (Ok None) (Throw timeout) (Ok (Js.Str "0xbeef")) in
  let reverting :=
    Stub.env_with (Ok None) (Ok (["pool"], BigNumber.Fin false 5 17)) (Throw timeout) in
  (sent (run (balancer_price down (Stub.swap "1" None))) = []
   /\ escaped (balancer_price down (Stub.swap "1" None)) = Some timeout)
  /\ (sent (run (balancer_trade reverting (Stub.swap "1" None))) = []
      /\ escaped (balancer_trade reverting (Stub.swap "1" None)) = Some timeout
      /\ executed (run (balancer_trade reverting (Stub.swap "1" None))) = true).
Proof.
  intros timeout down reverting.
  destruct (balancer_router_responses down
              {| authorized := true; cert_subject := Js.Undefined; method := "GET";
                 url := "/price"; req_body := ∅; req_query := Stub.swap "1" None |}
              (Stub.swap "1" None) timeout) as (_ & Hd & _).
  destruct (balancer_router_responses reverting
              {| authorized := true; cert_subject := Js.Undefined; method := "GET";
                 url := "/trade"; req_body := ∅; req_query := Stub.swap "1" None |}
              (Stub.swap "1" None) timeout) as (_ & _ & Hr).
  split.
  - destruct Hd as (H1 & H2 & _); [vm_compute; reflexivity|]. split; assumption.
  - apply (Hr ["pool"] (BigNumber.Fin false 5 17)); vm_compute; reflexivity.
Defined.

(** A quote and a sale on the same pool. *)
Lemma trade_agrees_with_quote_witness :
  let env := Stub.env (Stub.pool "150.00000" "0.0066666667") (BigNumber.Fin false 5 17) in
  exists quoted, sent (run (sell_price env (Stub.trade "0.1" None))) = [quoted]
    /\ agrees_on ["network"; "base"; "quote"; "amount"; "expectedOut"; "price"]
                 quoted (run (sell env (Stub.trade "0.1" None))).
Proof.
  intros env.
  destruct (trade_agrees_with_quote env (Stub.trade "0.1" None) (Stub.swap "1" None)
              {| Stub.straight := "150.00000"; Stub.inverted := "0.0066666667" |}
              ["pool"] (BigNumber.Fin false 5 17)) as [H _].
  apply H. vm_compute. reflexivity.
Defined.

(** ** More of the code: loosening the bound *)

Section Float_transitivity.

Lemma SFleb_trans (a b c : spec_float) :
  SFleb a b = true -> SFleb b c = true -> SFleb a c = true.
Proof.
  unfold SFleb.
  destruct a as [sa|sa| |sa ma ea], b as [sb|sb| |sb mb eb], c as [sc|sc| |sc mc ec];
    simpl; try discriminate; try reflexivity;
    try (destruct sa; simpl; try discriminate; try reflexivity);
    try (destruct sb; simpl; try discriminate; try reflexivity);
    try (destruct sc; simpl; try discriminate; try reflexivity);
    change (Pos.compare_cont Eq) with Pos.compare;
    repeat match goal with
      | |- context [(?x ?= ?y)%Z] => destruct (Z.compare_spec x y)
      | |- context [(?x ?= ?y)%positive] => destruct (Pos.compare_spec x y)
      end;
    simpl; try discriminate; try reflexivity; intros; exfalso; subst; lia.
Qed.

Lemma leb_trans (x y z : float) :
  PrimFloat.leb x y = true -> PrimFloat.leb y z = true -> PrimFloat.leb x z = true.
Proof.
  rewrite !FloatAxioms.leb_spec. apply SFleb_trans.
Qed.

End Float_transitivity.

Section Looser_bound.
Context {sdk : Sdk} (env : Env).

(** X22.  Loosening the bound never turns an executed trade into a
    rejected one.  For two trade requests with the same key and tokens and
    bounds that read as numbers other than 0 and NaN: a [/sell] that
    executes under the bound [b] executes under every bound [b' <= b], and
    a [/buy] that executes under [b] executes under every [b' >= b]. *)
Theorem looser_bound_still_executes (body body' : Js.obj) (r : Route) :
  let pd := getParamData env body in
  let pd' := getParamData env body' in
  let b := Js.parseFloat (Js.get pd "maxPrice") in
  let b' := Js.parseFloat (Js.get pd' "maxPrice") in
  Js.get pd' "privateKey" = Js.get pd "privateKey" ->
  Js.get pd' "base" = Js.get pd "base" ->
  Js.get pd' "quote" = Js.get pd "quote" ->
  Js.truthy (Js.get pd "maxPrice") = true -> is_nan b || is_zero b = false ->
  Js.truthy (Js.get pd' "maxPrice") = true -> is_nan b' || is_zero b' = false ->
  wallet_rejects env (Js.get pd "privateKey") = None ->
  (fetch_route env (Js.get pd "base") (Js.get pd "quote") = Ok (Some r) ->
   PrimFloat.leb b' b = true ->
   executed (run (sell env body)) = true -> executed (run (sell env body')) = true)
  /\
  (fetch_route env (Js.get pd "quote") (Js.get pd "base") = Ok (Some r) ->
   PrimFloat.leb b b' = true ->
   executed (run (buy env body)) = true -> executed (run (buy env body')) = true).
Proof.
  intros pd pd' b b'. subst pd pd' b b'.
  intros Hk Hb Hq Hv Hn Hv' Hn' Hw. split; intros Hr Hle.
  - rewrite (sell_executed env body r Hw Hr).
    rewrite (sell_executed env body' r);
      [| rewrite Hk; exact Hw | rewrite Hb, Hq; exact Hr].
    rewrite (guard_with_bound _ _ Hv Hn), (guard_with_bound _ _ Hv' Hn'), !ge_number.
    intros Hp. exact (leb_trans _ _ _ Hle Hp).
  - rewrite (buy_executed env body r Hw Hr).
    rewrite (buy_executed env body' r);
      [| rewrite Hk; exact Hw | rewrite Hb, Hq; exact Hr].
    rewrite (guard_with_bound _ _ Hv Hn), (guard_with_bound _ _ Hv' Hn'), !le_number.
    intros Hp. exact (leb_trans _ _ _ Hp Hle).
Qed.

End Looser_bound.

(** A sale at 95 that executes under a floor of 90 executes under 80. *)
Lemma looser_bound_still_executes_witness :
  let env := Stub.env (Stub.pool "95" "105") BigNumber.NaN in
  executed (run (sell env (Stub.trade "1" (Some "80")))) = true.
Proof.
  intros env.
  refine (proj1 (looser_bound_still_executes env (Stub.trade "1" (Some "90"))
                   (Stub.trade "1" (Some "80"))
                   {| Stub.straight := "95"; Stub.inverted := "105" |}
                   _ _ _ _ _ _ _ _) _ _ _);
    vm_compute; reflexivity.
Defined.

Section Process_name.
Variable toLowerCase : string -> string.

Lemma strip_prefix_spec (p s rest : string) :
  Js.strip_prefix p s = Some rest <-> s = p +:+ rest.
Proof.
  revert s. induction p as [|a p IH]; intros s; simpl.
  - split; [intros [= ->]; reflexivity | intros ->; reflexivity].
  - destruct s as [|c s].
    + split; discriminate.
    + destruct (Ascii.eqb_spec a c) as [->|Hne].
      * rewrite IH, append_String. split; [intros ->; reflexivity|].
        intros [= ->]. reflexivity.
      * rewrite append_String. split; [discriminate|]. intros [= E _]. congruence.
Qed.

Lemma includes_spec (t s : string) :
  Index.includes t s = true <-> exists a b, s = a +:+ t +:+ b.
Proof.
  induction s as [|c s IH]; simpl.
  - destruct (Js.strip_prefix t "") as [rest|] eqn:E.
    + split; [|reflexivity]. intros _. apply strip_prefix_spec in E.
      exists "", rest. exact E.
    + split; [discriminate|]. intros (a & b & H). exfalso.
      destruct a as [|x a]; [|discriminate H].
      change ("" +:+ t +:+ b) with (t +:+ b) in H.
      apply strip_prefix_spec in H. congruence.
  - destruct (Js.strip_prefix t (String c s)) as [rest|] eqn:E.
    + split; [|reflexivity]. intros _. apply strip_prefix_spec in E.
      exists "", rest. exact E.
    + rewrite IH. split.
      * intros (a & b & ->). exists (String c a), b. reflexivity.
      * intros (a & b & H). destruct a as [|x a].
        -- change ("" +:+ t +:+ b) with (t +:+ b) in H.
           apply strip_prefix_spec in H. congruence.
        -- rewrite append_String in H. injection H as _ ->. exists a, b. reflexivity.
Qed.

(** X23.  For a query that is a string and not numeric, a process name,
    the callback of [isRunning] is handed a boolean: [true] exactly when the
    output of the command, in lower case, contains the name in lower case.
    For a query that is neither numeric nor a string, the callback throws
    a TypeError. *)
Theorem isRunning_matches_name (query : Js.value) (stdout : string) :
  Index.isNumeric query = false ->
  (forall name, query = Js.Str name ->
     exists found,
       Index.isRunning_cb toLowerCase query stdout = Ok (Js.Bool found)
       /\ (found = true
           <-> exists a b, toLowerCase stdout = a +:+ toLowerCase name +:+ b))
  /\ ((forall name, query <> Js.Str name) ->
      exists e, Index.isRunning_cb toLowerCase query stdout = Throw e).
Proof.
  intros Hq. unfold Index.isRunning_cb. rewrite Hq. split.
  - intros name ->. eexists. split; [reflexivity|]. apply includes_spec.
  - intros Hs. destruct query as [| |b|x|s]; try (eexists; reflexivity).
    exfalso. apply (Hs s). reflexivity.
Qed.

End Process_name.

(** The query "node" against the output of ps. *)
Lemma isRunning_matches_name_witness :
  exists found,
    Index.isRunning_cb (fun s => s) (Js.Str "node") "4242 ttys000 node index.js"
    = Ok (Js.Bool found)
    /\ (found = true
        <-> exists a b, "4242 ttys000 node index.js" = a +:+ "node" +:+ b).
Proof.
  destruct (isRunning_matches_name (fun s => s) (Js.Str "node")
              "4242 ttys000 node index.js") as [H _]; [vm_compute; reflexivity|].
  exact (H "node" eq_refl).
Defined.
